(** * Smart aquarium backend

    A shallow embedding of the Django application under [api/]: the three
    models of [api/models.py] as tables keyed by primary key, the ORM calls the
    views make ([create], [get_or_create], [filter(...).first()], [save]) as
    operations of a small state-and-exception monad, and the views of
    [api/views.py] written in that monad, statement by statement. *)

From Stdlib Require Import ZArith PrimFloat SpecFloat FloatOps.
From stdpp Require Import gmap strings list fin_maps sorting.

#[local] Set Warnings "-register-all".
#[local] Open Scope Z_scope.

(** ** Python values *)

(** Exceptions the views can meet.  [DoesNotExist] and
    [MultipleObjectsReturned] are raised by [QuerySet.get]; [ParseError] by the
    REST framework when [request.data] cannot be parsed; [DatabaseError]
    ([django.db.DatabaseError], of which the backends raise a subclass) when
    the database refuses a value it is asked to store; the others by
    [json.loads], attribute access and [float]. *)
Inductive exn :=
  | JSONDecodeError
  | ParseError
  | AttributeError
  | TypeError
  | ValueError
  | OverflowError
  | DoesNotExist
  | MultipleObjectsReturned
  | DatabaseError.

Inductive result (A : Type) :=
  | Ok (a : A)
  | Raise (e : exn).
Arguments Ok {A} a.
Arguments Raise {A} e.

(** The pieces of an f-string, kept symbolic: a literal, a formatted float,
    [s.capitalize()] and [s.upper()]. *)
Inductive fpart :=
  | FLit (s : string)
  | FFloat (f : float)
  | FCapitalize (s : string)
  | FUpper (s : string).

(** Values found in request bodies: what [json.loads] builds. *)
Inductive pyval :=
  | VNone
  | VBool (b : bool)
  | VInt (z : Z)
  | VFloat (f : float)
  | VStr (s : string)
  | VList (l : list pyval)
  | VDict (d : gmap string pyval).

(** Values placed in response dictionaries: literals, model fields
    ([RDatetime] is a [datetime], in microseconds), f-strings, [REcho v] a
    request value handed back as it is, [RExcStr e] the text [str(e)] of an
    exception. *)
Inductive rval :=
  | RNone
  | RBool (b : bool)
  | RInt (z : Z)
  | RFloat (f : float)
  | RStr (s : string)
  | RDatetime (t : Z)
  | RFormat (parts : list fpart)
  | RExcStr (e : exn)
  | REcho (v : pyval)
  | RDict (d : gmap string rval).

(** [float(n)] for a Python [int]: the nearest binary64 value, ties to even;
    an [int] beyond the range raises [OverflowError]. *)
Definition float_of_int (z : Z) : option float :=
  match binary_normalize prec emax z 0 false with
  | S754_infinity _ => None
  | sf => Some (SF2Prim sf)
  end.

(** [float(s)] for a [str] is the interpreter's own parser; the development is
    parametric in it.  [None] stands for [ValueError]. *)
Class FloatSyntax := float_of_str : string → option float.

(** A parser for the examples below, which carry numbers and no numeric
    strings: it knows the two spellings of a plain zero and rejects
    everything else. *)
Definition zero_only_syntax : FloatSyntax :=
  λ s, if bool_decide (s = "0" ∨ s = "0.0") then Some 0%float else None.

(** The same parser, knowing also the spelling ["nan"], which [float] reads
    as the value that is not a number. *)
Definition nan_syntax : FloatSyntax :=
  λ s, if bool_decide (s = "nan") then Some nan else zero_only_syntax s.

(** [float(v)]. *)
Definition py_float `{FloatSyntax} (v : pyval) : result float :=
  match v with
  | VFloat f => Ok f
  | VInt z => match float_of_int z with
              | Some f => Ok f
              | None => Raise OverflowError
              end
  | VBool b => Ok (if b then 1%float else 0%float)
  | VStr s => match float_of_str s with
              | Some f => Ok f
              | None => Raise ValueError
              end
  | _ => Raise TypeError
  end.

(** [v.get(key, default)]: only a [dict] has the method. *)
Definition py_get (v : pyval) (key : string) (dflt : pyval) : result pyval :=
  match v with
  | VDict d => Ok (default dflt (d !! key))
  | _ => Raise AttributeError
  end.

(** [v == s] for a string literal [s]. *)
Definition str_eq (v : pyval) (s : string) : bool :=
  match v with
  | VStr s' => bool_decide (s' = s)
  | _ => false
  end.

(** The characters of a [str]; used where the value is known to be one. *)
Definition str_of (v : pyval) : string :=
  match v with
  | VStr s => s
  | _ => ""
  end.

(** [v is None]. *)
Definition is_none (v : pyval) : bool :=
  match v with
  | VNone => true
  | _ => false
  end.

(** [v.upper()] inside an f-string: only a [str] has the method. *)
Definition py_upper (v : pyval) : result fpart :=
  match v with
  | VStr s => Ok (FUpper s)
  | _ => Raise AttributeError
  end.

(** ** Models ([api/models.py]) *)

Record SensorData := {
  temperature : float;
  humidity : float;
  timestamp : Z                 (* auto_now_add *)
}.

Record DeviceControl := {
  device : string;
  is_on : bool;
  last_updated : Z              (* auto_now *)
}.

Record TemperatureSetpoint := {
  setpoint_temperature : float;
  created_by : option Z;        (* nullable foreign key to the user *)
  created_at : Z;               (* auto_now_add *)
  updated_at : Z;               (* auto_now *)
  is_active : bool
}.

(** The database: one table per model, each a finite map from the primary key
    to the row, and for each table the sequence of its [AutoField]: the
    largest key the table has given to a new row so far.  A key is given
    once: the sequence does not go back when a row is deleted. *)
Record Store := {
  sensor_data : gmap Z SensorData;
  device_control : gmap Z DeviceControl;
  temperature_setpoint : gmap Z TemperatureSetpoint;
  sensor_data_seq : Z;
  device_control_seq : Z;
  temperature_setpoint_seq : Z
}.

Definition empty_store : Store :=
  {| sensor_data := ∅; device_control := ∅; temperature_setpoint := ∅;
     sensor_data_seq := 0; device_control_seq := 0; temperature_setpoint_seq := 0 |}.

(** Writing the rows of one table; the sequences stay. *)
Definition set_sensor_data (t : gmap Z SensorData) (s : Store) : Store :=
  {| sensor_data := t;
     device_control := device_control s;
     temperature_setpoint := temperature_setpoint s;
     sensor_data_seq := sensor_data_seq s;
     device_control_seq := device_control_seq s;
     temperature_setpoint_seq := temperature_setpoint_seq s |}.

Definition set_device_control (t : gmap Z DeviceControl) (s : Store) : Store :=
  {| sensor_data := sensor_data s;
     device_control := t;
     temperature_setpoint := temperature_setpoint s;
     sensor_data_seq := sensor_data_seq s;
     device_control_seq := device_control_seq s;
     temperature_setpoint_seq := temperature_setpoint_seq s |}.

Definition set_temperature_setpoint (t : gmap Z TemperatureSetpoint) (s : Store) : Store :=
  {| sensor_data := sensor_data s;
     device_control := device_control s;
     temperature_setpoint := t;
     sensor_data_seq := sensor_data_seq s;
     device_control_seq := device_control_seq s;
     temperature_setpoint_seq := temperature_setpoint_seq s |}.

(** Moving the sequence of one table on to the key just given. *)
Definition set_sensor_data_seq (k : Z) (s : Store) : Store :=
  {| sensor_data := sensor_data s;
     device_control := device_control s;
     temperature_setpoint := temperature_setpoint s;
     sensor_data_seq := k;
     device_control_seq := device_control_seq s;
     temperature_setpoint_seq := temperature_setpoint_seq s |}.

Definition set_device_control_seq (k : Z) (s : Store) : Store :=
  {| sensor_data := sensor_data s;
     device_control := device_control s;
     temperature_setpoint := temperature_setpoint s;
     sensor_data_seq := sensor_data_seq s;
     device_control_seq := k;
     temperature_setpoint_seq := temperature_setpoint_seq s |}.

Definition set_temperature_setpoint_seq (k : Z) (s : Store) : Store :=
  {| sensor_data := sensor_data s;
     device_control := device_control s;
     temperature_setpoint := temperature_setpoint s;
     sensor_data_seq := sensor_data_seq s;
     device_control_seq := device_control_seq s;
     temperature_setpoint_seq := k |}.

(** [INSERT]: the row goes in under the key [k] the sequence gives, and the
    sequence moves on to [k]. *)
Definition insert_sensor_data (k : Z) (r : SensorData) (s : Store) : Store :=
  set_sensor_data (<[k := r]> (sensor_data s)) (set_sensor_data_seq k s).

Definition insert_device_control (k : Z) (r : DeviceControl) (s : Store) : Store :=
  set_device_control (<[k := r]> (device_control s)) (set_device_control_seq k s).

Definition insert_temperature_setpoint (k : Z) (r : TemperatureSetpoint) (s : Store)
    : Store :=
  set_temperature_setpoint (<[k := r]> (temperature_setpoint s))
    (set_temperature_setpoint_seq k s).

(** What lies outside the application: the database behind the ORM, whose
    settings are not part of [api/].  A [FloatField] column stores every
    finite binary64 value; whether it stores the others depends on the
    backend (MySQL refuses the infinities and the value that is not a
    number, SQLite refuses the latter), and a value the column does not
    take makes the [INSERT] or [UPDATE] raise, with nothing written. *)
Class Database := {
  db_accepts : float → bool;
  db_accepts_finite : ∀ f, is_finite f = true → db_accepts f = true
}.

(** The backend [test_system.py] names: finite values only. *)
Definition mysql : Database :=
  {| db_accepts := is_finite; db_accepts_finite := λ f Hf, Hf |}.

(** A request reads the clock each time a date field is filled in: for
    every [auto_now_add] and [auto_now] field of a row it inserts, and for
    every [auto_now] field of a row it saves.  The [now] of a request is its
    last reading, the one that [auto_now] leaves in the row; the
    [auto_now_add] field of a new setpoint is filled in from a reading taken
    before it.  The development is parametric in that earlier reading, given
    the last. *)
Class Clock := first_reading : Z → Z.

(** A clock for the examples below: the first reading of a request is 3
    microseconds before its last. *)
Definition sample_clock : Clock := λ now, now - 3.

(** ** Tables and querysets *)

Section table.
Context {A : Type}.

(** The key an [AutoField] gives a new row: one more than the largest key
    given so far, which is the table's sequence [seq], or a key of the table
    if a row was written under a larger one. *)
Definition next_id (seq : Z) (t : gmap Z A) : Z :=
  1 + map_fold (λ k _ acc, Z.max k acc) seq t.

(** [filter(...)], the lookup given as a test on the row. *)
Definition objects_filter (P : A → bool) (t : gmap Z A) : gmap Z A :=
  filter (λ kr, P kr.2) t.

(** [get(...)]: the only matching row, [DoesNotExist] when there is
    none, [MultipleObjectsReturned] when there are several. *)
Definition objects_get (P : A → bool) (t : gmap Z A) : result (Z * A) :=
  match map_to_list (objects_filter P t) with
  | [] => Raise DoesNotExist
  | [kr] => Ok kr
  | _ => Raise MultipleObjectsReturned
  end.

(** A queryset's order: [Meta.ordering = ['-field']], or none, in which case
    [first()] orders by primary key. *)
Inductive ordering :=
  | by_pk
  | desc (field : A → Z).

Definition rank (o : ordering) (a : A) : Z :=
  match o with
  | by_pk => 0
  | desc field => - field a
  end.

(** [x] comes before [y].  Rows that tie on the ordering field come in an
    order the database chooses; here the smaller key goes first. *)
Definition precedes (o : ordering) (x y : Z * A) : bool :=
  (rank o x.2 <? rank o y.2) || ((rank o x.2 =? rank o y.2) && (x.1 <? y.1)).

Definition pick (o : ordering) (x : Z * A) (acc : option (Z * A)) : option (Z * A) :=
  match acc with
  | None => Some x
  | Some y => Some (if precedes o x y then x else y)
  end.

(** [first()]: the first row in the order, [None] for an empty queryset. *)
Definition objects_first (o : ordering) (t : gmap Z A) : option (Z * A) :=
  foldr (pick o) None (map_to_list t).
End table.

Arguments ordering : clear implicits.

(** [class Meta: ordering = ...] of the three models. *)
Definition SensorData_ordering : ordering SensorData := desc timestamp.
Definition DeviceControl_ordering : ordering DeviceControl := by_pk.
Definition TemperatureSetpoint_ordering : ordering TemperatureSetpoint := desc updated_at.

(** ** The monad of a request

    A computation is given [now], the last reading the request takes of the
    clock ([timezone.now()]), reads and writes the database, and returns or
    raises.  The database keeps what was written before an exception: the
    views run outside any transaction. *)
Definition orm (A : Type) : Type := Z → Store → result A * Store.

#[global] Instance orm_ret : MRet orm := λ A a _ s, (Ok a, s).

#[global] Instance orm_bind : MBind orm := λ A B f m now s,
  match m now s with
  | (Ok a, s') => f a now s'
  | (Raise e, s') => (Raise e, s')
  end.

Definition raise {A} (e : exn) : orm A := λ _ s, (Raise e, s).

Definition lift {A} (r : result A) : orm A := λ _ s, (r, s).

(** [try: body except Exception as e: handler(e)]. *)
Definition try_except {A} (body : orm A) (handler : exn → orm A) : orm A :=
  λ now s,
    match body now s with
    | (Ok a, s') => (Ok a, s')
    | (Raise e, s') => handler e now s'
    end.

(** ** The ORM calls of the views *)

(** [SensorData.objects.create(temperature=t, humidity=h)]: the row is
    inserted unless the database refuses one of the two values. *)
Definition SensorData_create `{Database} (t h : float) : orm (Z * SensorData) :=
  λ now s,
    if db_accepts t && db_accepts h then
      let k := next_id (sensor_data_seq s) (sensor_data s) in
      let row := {| temperature := t; humidity := h; timestamp := now |} in
      (Ok (k, row), insert_sensor_data k row s)
    else (Raise DatabaseError, s).

(** [SensorData.objects.first()]. *)
Definition SensorData_first : orm (option (Z * SensorData)) := λ _ s,
  (Ok (objects_first SensorData_ordering (sensor_data s)), s).

(** The lookup [device=d]. *)
Definition device_is (d : string) (r : DeviceControl) : bool :=
  bool_decide (device r = d).

(** [DeviceControl.objects.filter(device=d).first()]. *)
Definition DeviceControl_filter_first (d : string) : orm (option (Z * DeviceControl)) :=
  λ _ s,
    (Ok (objects_first DeviceControl_ordering
           (objects_filter (device_is d) (device_control s))), s).

(** [DeviceControl.objects.create(device=d, is_on=b)].  The view saves the
    row again at once, which fills in [last_updated] anew. *)
Definition DeviceControl_create (d : string) (b : bool) : orm (Z * DeviceControl) :=
  λ now s,
    let k := next_id (device_control_seq s) (device_control s) in
    let row := {| device := d; is_on := b; last_updated := now |} in
    (Ok (k, row), insert_device_control k row s).

(** [DeviceControl.objects.get_or_create(device=d, defaults={'is_on': b})]:
    [get], and [create] when [get] raised [DoesNotExist]; any other exception
    of [get] goes on to the caller. *)
Definition DeviceControl_get_or_create (d : string) (b : bool)
    : orm ((Z * DeviceControl) * bool) :=
  try_except
    (obj ← (λ _ s, (objects_get (device_is d) (device_control s), s));
     mret (obj, false))
    (λ e, match e with
          | DoesNotExist => obj ← DeviceControl_create d b; mret (obj, true)
          | _ => raise e
          end).

(** [obj.save()]: the row of that key is written, [last_updated] refreshed. *)
Definition DeviceControl_save (obj : Z * DeviceControl) : orm () := λ now s,
  let row := {| device := device obj.2; is_on := is_on obj.2; last_updated := now |} in
  (Ok (), set_device_control (<[obj.1 := row]> (device_control s)) s).

(** [TemperatureSetpoint.objects.filter(is_active=True).first()]. *)
Definition TemperatureSetpoint_active_first : orm (option (Z * TemperatureSetpoint)) :=
  λ _ s,
    (Ok (objects_first TemperatureSetpoint_ordering
           (objects_filter is_active (temperature_setpoint s))), s).

(** [TemperatureSetpoint.objects.create(is_active=True,
    setpoint_temperature=t, created_by=u)]: the row is inserted unless the
    database refuses the temperature.  [created_at] is filled in from the
    first reading of the clock, [updated_at] from a later one. *)
Definition TemperatureSetpoint_create `{Database} `{Clock} (t : float) (u : option Z)
    : orm (Z * TemperatureSetpoint) := λ now s,
  if db_accepts t then
    let k := next_id (temperature_setpoint_seq s) (temperature_setpoint s) in
    let row := {| setpoint_temperature := t; created_by := u;
                  created_at := first_reading now;
                  updated_at := now; is_active := true |} in
    (Ok (k, row), insert_temperature_setpoint k row s)
  else (Raise DatabaseError, s).

(** [TemperatureSetpoint.objects.get_or_create(is_active=True,
    defaults={'setpoint_temperature': t, 'created_by': u})]. *)
Definition TemperatureSetpoint_get_or_create `{Database} `{Clock}
    (t : float) (u : option Z) : orm ((Z * TemperatureSetpoint) * bool) :=
  try_except
    (obj ← (λ _ s, (objects_get is_active (temperature_setpoint s), s));
     mret (obj, false))
    (λ e, match e with
          | DoesNotExist => obj ← TemperatureSetpoint_create t u; mret (obj, true)
          | _ => raise e
          end).

(** [obj.save()]: the row of that key is written, [updated_at] refreshed,
    unless the database refuses the temperature. *)
Definition TemperatureSetpoint_save `{Database} (obj : Z * TemperatureSetpoint)
    : orm () := λ now s,
  if db_accepts (setpoint_temperature obj.2) then
    let row := {| setpoint_temperature := setpoint_temperature obj.2;
                  created_by := created_by obj.2;
                  created_at := created_at obj.2;
                  updated_at := now;
                  is_active := is_active obj.2 |} in
    (Ok (), set_temperature_setpoint (<[obj.1 := row]> (temperature_setpoint s)) s)
  else (Raise DatabaseError, s).

(** ** Requests and responses *)

Inductive http_method := GET | POST | PUT | PATCH | DELETE | HEAD | OPTIONS.

#[global] Instance http_method_eq_dec : EqDecision http_method.
Proof. solve_decision. Defined.

(** What the views read of a request: the method, the logged-in user
    ([None] for an anonymous session), the outcome of [json.loads] on the raw
    body, the outcome of the REST framework's parsing ([request.data]) and
    the query string, pairs in the order they were sent. *)
Record HttpRequest := {
  method : http_method;
  user : option Z;
  body : result pyval;
  data : result pyval;
  query_params : list (string * string)
}.

(** [query_params.get(key, default)]: the last value sent for the key. *)
Definition query_get (qs : list (string * string)) (key dflt : string) : string :=
  default dflt
    (last (omap (λ kv : string * string,
                   if bool_decide (kv.1 = key) then Some kv.2 else None) qs)).

Inductive HttpResponse :=
  | JsonResponse (content : gmap string rval) (status : Z)
  | Response (content : gmap string rval) (status : Z)
  | HttpResponseRedirect (to : string)
  | HttpResponseNotAllowed
  | HttpResponseServerError
  | OptionsMetadata.

Definition HTTP_200_OK : Z := 200.
Definition HTTP_201_CREATED : Z := 201.
Definition HTTP_400_BAD_REQUEST : Z := 400.
Definition HTTP_401_UNAUTHORIZED : Z := 401.
Definition HTTP_404_NOT_FOUND : Z := 404.

Definition view : Type := HttpRequest → orm HttpResponse.

(** [@login_required(login_url='login')]. *)
Definition login_required (v : view) : view := λ request,
  match user request with
  | Some _ => v request
  | None => mret (HttpResponseRedirect "login")
  end.

(** [@require_http_methods([...])]: any other method is answered 405 before
    the view runs. *)
Definition require_http_methods (allowed : list http_method) (v : view) : view :=
  λ request,
    if bool_decide (method request ∈ allowed) then v request
    else mret HttpResponseNotAllowed.

(** [@api_view([...])]: the REST framework answers OPTIONS itself, with the
    description of the endpoint, and any other method not listed with 405.
    [@csrf_exempt] and [@permission_classes([AllowAny])] let every request
    through. *)
Definition api_view (allowed : list http_method) (v : view) : view :=
  λ request,
    if bool_decide (method request = OPTIONS) then mret OptionsMetadata
    else require_http_methods allowed v request.

Definition VALID_API_KEY : string := "your_rpi_api_key_12345".

(** ** Views ([api/views.py]) *)

(** [setpoint.setpoint_temperature = t; setpoint.created_by = u]. *)
Definition assign_setpoint (t : float) (u : option Z) (r : TemperatureSetpoint)
    : TemperatureSetpoint :=
  {| setpoint_temperature := t; created_by := u; created_at := created_at r;
     updated_at := updated_at r; is_active := is_active r |}.

(** [device_obj.is_on = b]. *)
Definition assign_is_on (b : bool) (r : DeviceControl) : DeviceControl :=
  {| device := device r; is_on := b; last_updated := last_updated r |}.

(** The two bytes of the degree sign, and [C]. *)
Definition degrees_C : string :=
  String (Ascii.ascii_of_nat 194) (String (Ascii.ascii_of_nat 176) "C").

(** [update_setpoint]: the admin sets the temperature setpoint. *)
Definition update_setpoint `{FloatSyntax} `{Database} `{Clock} : view :=
  login_required (require_http_methods [POST] (λ request,
    try_except
      (data ← lift (body request);
       v ← lift (py_get data "setpoint" (VFloat 25.0%float));
       new_setpoint ← lift (py_float v);
       '(setpoint, created) ←
         TemperatureSetpoint_get_or_create new_setpoint (user request);
       let setpoint : Z * TemperatureSetpoint :=
         (setpoint.1, assign_setpoint new_setpoint (user request) setpoint.2) in
       _ ← TemperatureSetpoint_save setpoint;
       mret (JsonResponse
               {[ "success" := RBool true;
                  "message" := RFormat [FLit "Setpoint updated to ";
                                        FFloat new_setpoint; FLit degrees_C];
                  "setpoint" := RFloat new_setpoint ]}
               HTTP_200_OK))
      (λ e, mret (JsonResponse
                    {[ "success" := RBool false; "error" := RExcStr e ]}
                    HTTP_400_BAD_REQUEST)))).

(** [control_device]: the admin switches the fan or the heater. *)
Definition control_device : view :=
  login_required (require_http_methods [POST] (λ request,
    try_except
      (data ← lift (body request);
       device ← lift (py_get data "device" VNone);
       action ← lift (py_get data "action" VNone);
       if negb (existsb (str_eq device) ["fan"; "heater"]) then
         mret (JsonResponse
                 {[ "success" := RBool false; "error" := RStr "Invalid device" ]}
                 HTTP_400_BAD_REQUEST)
       else
         '(device_obj, created) ← DeviceControl_get_or_create (str_of device) false;
         let device_obj : Z * DeviceControl :=
           (device_obj.1, assign_is_on (str_eq action "on") device_obj.2) in
         _ ← DeviceControl_save device_obj;
         turned ← lift (py_upper action);
         mret (JsonResponse
                 {[ "success" := RBool true;
                    "message" := RFormat [FCapitalize (str_of device);
                                          FLit " turned "; turned];
                    "device" := REcho device;
                    "status" := RBool (is_on device_obj.2) ]}
                 HTTP_200_OK))
      (λ e, mret (JsonResponse
                    {[ "success" := RBool false; "error" := RExcStr e ]}
                    HTTP_400_BAD_REQUEST)))).

(** The 401 of the four device endpoints. *)
Definition invalid_api_key : HttpResponse :=
  Response {[ "error" := RStr "Invalid API key" ]} HTTP_401_UNAUTHORIZED.

(** [api_sensor_data]: the device pushes one reading. *)
Definition api_sensor_data `{FloatSyntax} `{Database} : view :=
  api_view [POST] (λ request,
    if bool_decide (method request = POST) then
      try_except
        (d ← lift (data request);
         temperature ← lift (py_get d "temperature" VNone);
         humidity ← lift (py_get d "humidity" VNone);
         api_key ← lift (py_get d "api_key" (VStr ""));
         if negb (str_eq api_key VALID_API_KEY) then
           mret invalid_api_key
         else if is_none temperature || is_none humidity then
           mret (Response {[ "error" := RStr "Missing temperature or humidity" ]}
                   HTTP_400_BAD_REQUEST)
         else
           t ← lift (py_float temperature);
           h ← lift (py_float humidity);
           sensor ← SensorData_create t h;
           mret (Response
                   {[ "success" := RBool true;
                      "message" := RStr "Sensor data recorded";
                      "data_id" := RInt sensor.1;
                      "timestamp" := RDatetime (timestamp sensor.2) ]}
                   HTTP_201_CREATED))
        (λ e, mret (Response {[ "error" := RExcStr e ]} HTTP_400_BAD_REQUEST))
    else
      (* the function ends without a response; unreachable behind api_view *)
      mret HttpResponseServerError).

(** [api_get_setpoint]: the device reads the setpoint. *)
Definition api_get_setpoint : view :=
  api_view [GET] (λ request,
    let api_key := query_get (query_params request) "api_key" "" in
    if negb (bool_decide (api_key = VALID_API_KEY)) then
      mret invalid_api_key
    else
      setpoint ← TemperatureSetpoint_active_first;
      match setpoint with
      | Some sp =>
          mret (Response
                  {[ "setpoint_temperature" := RFloat (setpoint_temperature sp.2);
                     "updated_at" := RDatetime (updated_at sp.2) ]}
                  HTTP_200_OK)
      | None =>
          mret (Response
                  {[ "setpoint_temperature" := RFloat 25.0%float;
                     "updated_at" := RNone ]}
                  HTTP_200_OK)
      end).

(** The dictionary built for one device in [api_get_device_status]. *)
Definition device_entry (o : option (Z * DeviceControl)) : rval :=
  RDict {[ "is_on" := RBool (from_option (λ x, is_on x.2) false o);
           "last_updated" := from_option (λ x, RDatetime (last_updated x.2)) RNone o ]}.

(** [api_get_device_status]: the device reads the state of both actuators. *)
Definition api_get_device_status : view :=
  api_view [GET] (λ request,
    let api_key := query_get (query_params request) "api_key" "" in
    if negb (bool_decide (api_key = VALID_API_KEY)) then
      mret invalid_api_key
    else
      fan ← DeviceControl_filter_first "fan";
      heater ← DeviceControl_filter_first "heater";
      mret (Response
              {[ "fan" := device_entry fan; "heater" := device_entry heater ]}
              HTTP_200_OK)).

(** [api_latest_sensor_data]: the latest reading. *)
Definition api_latest_sensor_data : view :=
  api_view [GET] (λ request,
    let api_key := query_get (query_params request) "api_key" "" in
    if negb (bool_decide (api_key = VALID_API_KEY)) then
      mret invalid_api_key
    else
      sensor ← SensorData_first;
      match sensor with
      | Some sd =>
          mret (Response
                  {[ "temperature" := RFloat (temperature sd.2);
                     "humidity" := RFloat (humidity sd.2);
                     "timestamp" := RDatetime (timestamp sd.2) ]}
                  HTTP_200_OK)
      | None =>
          mret (Response {[ "error" := RStr "No sensor data available" ]}
                  HTTP_404_NOT_FOUND)
      end).

(** ** Querysets and responses by name *)

(** The active setpoint rows: [filter(is_active=True)]. *)
Abbreviation active s := (objects_filter is_active (temperature_setpoint s)).

(** The rows of one device: [filter(device=name)]. *)
Abbreviation rows_of name s := (objects_filter (device_is name) (device_control s)).

(** [unique_together = ('device',)]: no two rows for one device. *)
Definition unique_device (s : Store) : Prop :=
  ∀ k1 k2 r1 r2,
    device_control s !! k1 = Some r1 → device_control s !! k2 = Some r2 →
    device r1 = device r2 → k1 = k2.

(** A sequence of requests to one view, each with its clock reading. *)
Fixpoint run_requests (v : view) (calls : list (HttpRequest * Z)) (s : Store) : Store :=
  match calls with
  | [] => s
  | (request, now) :: rest => run_requests v rest (v request now s).2
  end.

(** The success dictionary of [update_setpoint]. *)
Definition setpoint_updated (t : float) : HttpResponse :=
  JsonResponse
    {[ "success" := RBool true;
       "message" := RFormat [FLit "Setpoint updated to "; FFloat t; FLit degrees_C];
       "setpoint" := RFloat t ]}
    HTTP_200_OK.

(** The [except] branch of [update_setpoint] and [control_device]. *)
Definition request_failed (e : exn) : HttpResponse :=
  JsonResponse {[ "success" := RBool false; "error" := RExcStr e ]}
    HTTP_400_BAD_REQUEST.

(** The answer of [control_device] to a device it does not know. *)
Definition invalid_device : HttpResponse :=
  JsonResponse {[ "success" := RBool false; "error" := RStr "Invalid device" ]}
    HTTP_400_BAD_REQUEST.

(** The answer of [control_device] after the row is saved: the success
    dictionary, or 400 when [action.upper()] raises. *)
Definition device_switched (dev action : pyval) (on : bool) : HttpResponse :=
  match py_upper action with
  | Ok turned =>
      JsonResponse
        {[ "success" := RBool true;
           "message" := RFormat [FCapitalize (str_of dev); FLit " turned "; turned];
           "device" := REcho dev;
           "status" := RBool on ]}
        HTTP_200_OK
  | Raise e => request_failed e
  end.

(** The two answers of [api_get_setpoint] with a valid key. *)
Definition setpoint_response (t : float) (updated : rval) : HttpResponse :=
  Response {[ "setpoint_temperature" := RFloat t; "updated_at" := updated ]}
    HTTP_200_OK.

(** The answers of [api_sensor_data] with a valid key: a field is missing,
    [float] raised, the reading is stored. *)
Definition missing_fields : HttpResponse :=
  Response {[ "error" := RStr "Missing temperature or humidity" ]}
    HTTP_400_BAD_REQUEST.

Definition api_error (e : exn) : HttpResponse :=
  Response {[ "error" := RExcStr e ]} HTTP_400_BAD_REQUEST.

Definition sensor_recorded (k now : Z) : HttpResponse :=
  Response
    {[ "success" := RBool true;
       "message" := RStr "Sensor data recorded";
       "data_id" := RInt k;
       "timestamp" := RDatetime now ]}
    HTTP_201_CREATED.

(** The answer of [api_latest_sensor_data] when there is a reading. *)
Definition latest_reading (r : SensorData) : HttpResponse :=
  Response
    {[ "temperature" := RFloat (temperature r);
       "humidity" := RFloat (humidity r);
       "timestamp" := RDatetime (timestamp r) ]}
    HTTP_200_OK.

(** ** Sample requests and stores *)

(** The admin's request body [{"setpoint": v}]. *)
Definition setpoint_request (u : Z) (v : pyval) : HttpRequest :=
  {| method := POST; user := Some u;
     body := Ok (VDict {[ "setpoint" := v ]});
     data := Ok (VDict {[ "setpoint" := v ]});
     query_params := [] |}.

(** The admin's request body [{"device": name, "action": a}]. *)
Definition device_request (u : Z) (name a : string) : HttpRequest :=
  {| method := POST; user := Some u;
     body := Ok (VDict {[ "device" := VStr name; "action" := VStr a ]});
     data := Ok (VDict {[ "device" := VStr name; "action" := VStr a ]});
     query_params := [] |}.

(** An admin's body that is valid JSON but not an object: [[]]. *)
Definition list_body_request : HttpRequest :=
  {| method := POST; user := Some 7; body := Ok (VList []);
     data := Ok (VList []); query_params := [] |}.

(** The device's POST, given as the dictionary its body parses to. *)
Definition device_post (d : gmap string pyval) : HttpRequest :=
  {| method := POST; user := None; body := Ok (VDict d); data := Ok (VDict d);
     query_params := [] |}.

(** The device's GET, with an API key in the query string and no body. *)
Definition device_get (key : string) : HttpRequest :=
  {| method := GET; user := None; body := Raise JSONDecodeError;
     data := Ok (VDict ∅); query_params := [("api_key", key)] |}.

(** Two active setpoint rows: key 1 updated at 10, key 2 updated at 20. *)
Definition two_active_store : Store :=
  set_temperature_setpoint
    {[ 1 := {| setpoint_temperature := 24.0%float; created_by := Some 7;
               created_at := 10; updated_at := 10; is_active := true |};
       2 := {| setpoint_temperature := 26.0%float; created_by := Some 7;
               created_at := 20; updated_at := 20; is_active := true |} ]}
    (set_temperature_setpoint_seq 2 empty_store).

(** A store whose only setpoint row is inactive. *)
Definition inactive_store : Store :=
  set_temperature_setpoint
    {[ 1 := {| setpoint_temperature := 22.0%float; created_by := None;
               created_at := 5; updated_at := 5; is_active := false |} ]}
    (set_temperature_setpoint_seq 1 empty_store).

(** A store with a row for the fan and none for the heater. *)
Definition fan_only_store : Store :=
  set_device_control
    {[ 1 := {| device := "fan"; is_on := true; last_updated := 50 |} ]}
    (set_device_control_seq 1 empty_store).

(** A store holding one reading, taken at time 40. *)
Definition one_reading_store : Store :=
  set_sensor_data
    {[ 1 := {| temperature := 24.0%float; humidity := 55.0%float;
               timestamp := 40 |} ]} (set_sensor_data_seq 1 empty_store).

(** ** Ordered querysets and pagination *)

(** [x] is not after [y] in the order [o]. *)
Definition not_after {A} (o : ordering A) (x y : Z * A) : Prop :=
  precedes o y x = false.

#[global] Instance not_after_dec {A} (o : ordering A) : RelDecision (not_after o).
Proof. intros x y. unfold not_after. apply _. Defined.

(** [objects.all()] of a model, evaluated: the rows in the queryset's order.
    Rows that tie on the ordering field are listed as [precedes] places
    them; the database fixes their order only when the field values
    differ. *)
Definition objects_all {A} (o : ordering A) (t : gmap Z A) : list (Z * A) :=
  merge_sort (not_after o) (map_to_list t).

(** [request.GET.get(key)]: the last value sent for the key, or [None]. *)
Definition GET_get (qs : list (string * string)) (key : string) : option string :=
  last (omap (λ kv : string * string,
                if bool_decide (kv.1 = key) then Some kv.2 else None) qs).

(** [int(s)] for a [str] is the interpreter's own parser; the development is
    parametric in it.  [None] stands for [ValueError]. *)
Class IntSyntax := int_of_str : string → option Z.

(** A parser for the examples below: it knows the numerals it is given. *)
Definition few_numerals_syntax : IntSyntax :=
  λ s, if bool_decide (s = "0") then Some 0
       else if bool_decide (s = "1") then Some 1
       else if bool_decide (s = "2") then Some 2
       else if bool_decide (s = "7") then Some 7
       else if bool_decide (s = "-3") then Some (-3)
       else None.

(** What [validate_number] is given: [None] or a string from the query
    string, or the integer [get_page] falls back to. *)
Inductive page_arg :=
  | ArgNone
  | ArgStr (s : string)
  | ArgInt (n : Z).

Inductive page_exn :=
  | PageNotAnInteger
  | EmptyPage.

Section paginator.
Context {A : Type} `{IntSyntax}.

(** [django.core.paginator.Paginator(object_list, per_page)], with the
    defaults [orphans=0] and [allow_empty_first_page=True]. *)
Record Paginator := {
  object_list : list A;
  per_page : Z
}.

Record Page := {
  page_object_list : list A;
  number : Z;
  paginator : Paginator
}.

Definition count (p : Paginator) : Z := Z.of_nat (length (object_list p)).

(** [ceil(hits / per_page)] with [hits = max(1, count)]; the quotient is
    taken exactly (Python takes it in binary64, which agrees for every
    count below 2^50). *)
Definition num_pages (p : Paginator) : Z :=
  let hits := Z.max 1 (count p) in
  (hits + per_page p - 1) / per_page p.

(** [int(number)] inside [validate_number]; [None] stands for [TypeError]
    and [ValueError], which are handled alike. *)
Definition int_of_arg (number : page_arg) : option Z :=
  match number with
  | ArgNone => None
  | ArgStr s => int_of_str s
  | ArgInt n => Some n
  end.

Definition validate_number (p : Paginator) (number : page_arg) : page_exn + Z :=
  match int_of_arg number with
  | None => inl PageNotAnInteger
  | Some n =>
      if n <? 1 then inl EmptyPage
      else if num_pages p <? n then inl EmptyPage
      else inr n
  end.

(** [object_list[bottom:top]] for [0 <= bottom]. *)
Definition slice (l : list A) (bottom top : Z) : list A :=
  take (Z.to_nat (top - bottom)) (drop (Z.to_nat bottom) l).

Definition page (p : Paginator) (number : page_arg) : page_exn + Page :=
  match validate_number p number with
  | inl e => inl e
  | inr n =>
      let bottom := (n - 1) * per_page p in
      let top := bottom + per_page p in
      let top := if count p <=? top then count p else top in
      inr {| page_object_list := slice (object_list p) bottom top;
             number := n; paginator := p |}
  end.

(** [get_page]: a number that is not an integer gives the first page, a
    number out of range the last. *)
Definition get_page (p : Paginator) (number : page_arg) : page_exn + Page :=
  match validate_number p number with
  | inr n => page p (ArgInt n)
  | inl PageNotAnInteger => page p (ArgInt 1)
  | inl EmptyPage => page p (ArgInt (num_pages p))
  end.
End paginator.

Arguments Paginator : clear implicits.
Arguments Page : clear implicits.

(** ** Pages ([api/views.py]) *)

(** The values of a template context. *)
Inductive cval :=
  | CSensor (latest : option (Z * SensorData))
  | CDevices (rows : gmap Z DeviceControl)
  | CSetpoint (sp : option (Z * TemperatureSetpoint))
  | CPage (p : Page (Z * SensorData)).

(** What a page view answers: [render(request, template, context)], or a
    response made without a template. *)
Inductive TemplateResponse :=
  | render (template : string) (context : gmap string cval)
  | plain (r : HttpResponse).

Definition page_view : Type := HttpRequest → orm TemplateResponse.

(** [@login_required(login_url='login')] on a page view. *)
Definition login_required_page (v : page_view) : page_view := λ request,
  match user request with
  | Some _ => v request
  | None => mret (plain (HttpResponseRedirect "login"))
  end.

(** [DeviceControl.objects.all()]: the rows of the table, in no stated
    order. *)
Definition DeviceControl_all : orm (gmap Z DeviceControl) := λ _ s,
  (Ok (device_control s), s).

(** [SensorData.objects.all()]. *)
Definition SensorData_all : orm (list (Z * SensorData)) := λ _ s,
  (Ok (objects_all SensorData_ordering (sensor_data s)), s).

(** The body shared, line for line, by the two dashboards. *)
Definition dashboard (template : string) : page_view := λ request,
  latest_sensor ← SensorData_first;
  devices ← DeviceControl_all;
  setpoint ← TemperatureSetpoint_active_first;
  mret (render template
          {[ "latest_sensor" := CSensor latest_sensor;
             "devices" := CDevices devices;
             "setpoint" := CSetpoint setpoint ]}).

(** [admin_dashboard]: the control panel. *)
Definition admin_dashboard : page_view :=
  login_required_page (dashboard "admin_dashboard.html").

(** [public_dashboard]: the same data, read-only, without login. *)
Definition public_dashboard : page_view :=
  dashboard "public_dashboard.html".

(** [data_history]: the readings, 50 to a page.  An exception of [get_page]
    would leave the view and be answered 500. *)
Definition data_history `{IntSyntax} : page_view :=
  login_required_page (λ request,
    sensor_data ← SensorData_all;
    let paginator := {| object_list := sensor_data; per_page := 50 |} in
    let page_number :=
      match GET_get (query_params request) "page" with
      | Some s => ArgStr s
      | None => ArgNone
      end in
    match get_page paginator page_number with
    | inr page_obj => mret (render "data_history.html" {[ "page_obj" := CPage page_obj ]})
    | inl _ => mret (plain HttpResponseServerError)
    end).

(** The [page] parameter of a request, as [get_page] receives it. *)
Definition page_parameter (request : HttpRequest) : page_arg :=
  match GET_get (query_params request) "page" with
  | Some s => ArgStr s
  | None => ArgNone
  end.

(** The readings as [SensorData.objects.all()] lists them, and the
    paginator [data_history] builds on them. *)
Abbreviation readings s := (objects_all SensorData_ordering (sensor_data s)).
Abbreviation history_paginator s :=
  ({| object_list := readings s; per_page := 50 |}).

(** No two readings carry the same timestamp: the order of the readings is
    then the same in every query. *)
Definition distinct_timestamps (s : Store) : Prop :=
  ∀ k1 k2 r1 r2,
    sensor_data s !! k1 = Some r1 → sensor_data s !! k2 = Some r2 →
    timestamp r1 = timestamp r2 → k1 = k2.

(** A logged-in GET of the history page, asking for page [p]. *)
Definition history_request (u : Z) (p : string) : HttpRequest :=
  {| method := GET; user := Some u; body := Raise JSONDecodeError;
     data := Ok (VDict ∅); query_params := [("page", p)] |}.

(** ** Routes ([api/urls.py]) *)

(** A view that answers without a template, as a page view. *)
Definition as_page (v : view) : page_view := λ request,
  r ← v request; mret (plain r).

(** The routes of the views above, in the order of [urlpatterns].  The
    routes [login/] and [logout/] are left out: their views work on the
    session and never touch the three tables. *)
Definition urlpatterns `{FloatSyntax} `{Database} `{Clock} `{IntSyntax}
    : list (string * page_view) :=
  [ ("dashboard/", admin_dashboard);
    ("public-dashboard/", public_dashboard);
    ("history/", data_history);
    ("update-setpoint/", as_page update_setpoint);
    ("control-device/", as_page control_device);
    ("api/sensor-data/", as_page api_sensor_data);
    ("api/get-setpoint/", as_page api_get_setpoint);
    ("api/get-device-status/", as_page api_get_device_status);
    ("api/latest-sensor/", as_page api_latest_sensor_data) ].

(** The view of a path: the first route that matches, if any. *)
Definition resolve `{FloatSyntax} `{Database} `{Clock} `{IntSyntax} (path : string)
    : option page_view :=
  (list_to_map urlpatterns : gmap string page_view) !! path.

(** A sequence of requests, each to a path and with its clock reading; a
    path without a route is answered by the framework and writes nothing. *)
Fixpoint run_site `{FloatSyntax} `{Database} `{Clock} `{IntSyntax}
    (calls : list (string * HttpRequest * Z)) (s : Store) : Store :=
  match calls with
  | [] => s
  | (path, request, now) :: rest =>
      run_site rest
        match resolve path with
        | Some v => (v request now s).2
        | None => s
        end
  end.

(** What the views keep true of the database: one row per device at most,
    rows for the fan and the heater only, and one active setpoint at most. *)
Definition consistent (s : Store) : Prop :=
  unique_device s ∧
  (∀ k r, device_control s !! k = Some r → device r ∈ ["fan"; "heater"]) ∧
  (size (active s) ≤ 1)%nat.

(** ** The admin site ([api/admin.py]) *)

(** A model instance in memory: its primary key, [None] before the first
    save, and its fields. *)
Definition TemperatureSetpoint_instance : Type := option Z * TemperatureSetpoint.

(** [obj.save()] for an instance the admin site built from a valid form;
    the form's [FloatField] lets finite temperatures through only, which
    every database stores.  A new instance is inserted under a new key, both
    dates filled in; a saved one is written under its key, [updated_at]
    refreshed.  The key is returned. *)
Definition TemperatureSetpoint_instance_save `{Clock} (obj : TemperatureSetpoint_instance)
    : orm Z := λ now s,
  match obj.1 with
  | Some k =>
      let row := {| setpoint_temperature := setpoint_temperature obj.2;
                    created_by := created_by obj.2;
                    created_at := created_at obj.2;
                    updated_at := now;
                    is_active := is_active obj.2 |} in
      (Ok k, set_temperature_setpoint (<[k := row]> (temperature_setpoint s)) s)
  | None =>
      let k := next_id (temperature_setpoint_seq s) (temperature_setpoint s) in
      let row := {| setpoint_temperature := setpoint_temperature obj.2;
                    created_by := created_by obj.2;
                    created_at := first_reading now; updated_at := now;
                    is_active := is_active obj.2 |} in
      (Ok k, insert_temperature_setpoint k row s)
  end.

(** [TemperatureSetpointAdmin.save_model(request, obj, form, change)]: the
    owner is filled in when the instance has none, then the instance is
    saved.  The admin site lets logged-in staff in only; assigning the
    anonymous user to the foreign key would raise [ValueError]. *)
Definition save_model `{Clock} (request : HttpRequest)
    (obj : TemperatureSetpoint_instance) : orm Z :=
  match created_by obj.2 with
  | Some _ => TemperatureSetpoint_instance_save obj
  | None =>
      match user request with
      | Some u =>
          TemperatureSetpoint_instance_save
            (obj.1, {| setpoint_temperature := setpoint_temperature obj.2;
                       created_by := Some u;
                       created_at := created_at obj.2;
                       updated_at := updated_at obj.2;
                       is_active := is_active obj.2 |})
      | None => raise ValueError
      end
  end.

(** An instance as the admin's add form builds it: a temperature and the
    [is_active] box, no owner; the dates of an instance not yet saved are
    unset and never read. *)
Definition new_setpoint_form (t : float) (is_on : bool) : TemperatureSetpoint_instance :=
  (None, {| setpoint_temperature := t; created_by := None; created_at := 0;
            updated_at := 0; is_active := is_on |}).

(** The POST of the admin site's form, sent by the staff user 1. *)
Definition admin_post : HttpRequest :=
  {| method := POST; user := Some 1; body := Raise JSONDecodeError;
     data := Ok (VDict ∅); query_params := [] |}.

(** ** The system tester ([test_system.py]) *)

(** The pieces of a printed line: text, an integer, a float, the text of an
    exception. *)
Inductive piece :=
  | PLit (s : string)
  | PInt (n : Z)
  | PFloat (f : float)
  | PExc (e : exn).

(** The counters of [AquariumSystemTester]. *)
Record AquariumSystemTester := {
  passed : Z;
  failed : Z;
  warnings : Z
}.

(** What a test method works on: the tester, what has been printed, one
    list of pieces per call of [print], and the database. *)
Record Run := {
  self : AquariumSystemTester;
  stdout : list (list piece);
  db : Store
}.

(** A test method reads the clock, changes the run, and returns or
    raises. *)
Definition tm (A : Type) : Type := Z → Run → result A * Run.

#[global] Instance tm_ret : MRet tm := λ A a _ w, (Ok a, w).

#[global] Instance tm_bind : MBind tm := λ A B f m now w,
  match m now w with
  | (Ok a, w') => f a now w'
  | (Raise e, w') => (Raise e, w')
  end.

(** [try: body except Exception as e: handler(e)] in a test method. *)
Definition tm_try_except {A} (body : tm A) (handler : exn → tm A) : tm A :=
  λ now w,
    match body now w with
    | (Ok a, w') => (Ok a, w')
    | (Raise e, w') => handler e now w'
    end.

(** An ORM call made by a test method. *)
Definition orm_call {A} (m : orm A) : tm A := λ now w,
  let out := m now (db w) in
  (out.1, {| self := self w; stdout := stdout w; db := out.2 |}).

Definition print (l : list piece) : tm () := λ _ w,
  (Ok (), {| self := self w; stdout := stdout w ++ [l]; db := db w |}).

(** [self.passed += 1], [self.failed += 1], [self.warnings += 1]. *)
Definition count_passed : tm () := λ _ w,
  (Ok (), {| self := {| passed := passed (self w) + 1; failed := failed (self w);
                        warnings := warnings (self w) |};
            stdout := stdout w; db := db w |}).

Definition count_failed : tm () := λ _ w,
  (Ok (), {| self := {| passed := passed (self w); failed := failed (self w) + 1;
                        warnings := warnings (self w) |};
            stdout := stdout w; db := db w |}).

Definition count_warning : tm () := λ _ w,
  (Ok (), {| self := {| passed := passed (self w); failed := failed (self w);
                        warnings := warnings (self w) + 1 |};
            stdout := stdout w; db := db w |}).

(** [SensorData.objects.count()]. *)
Definition SensorData_count : orm Z := λ _ s,
  (Ok (Z.of_nat (size (sensor_data s))), s).

(** [DeviceControl.objects.filter(device=d).exists()]. *)
Definition DeviceControl_exists (d : string) : orm bool := λ _ s,
  (Ok (bool_decide (size (rows_of d s) ≠ 0%nat)), s).

(** [SensorData.objects.get(id=k)]. *)
Definition SensorData_get_id (k : Z) : orm (Z * SensorData) := λ _ s,
  (match sensor_data s !! k with
   | Some r => Ok (k, r)
   | None => Raise DoesNotExist
   end, s).

(** [sensor.delete()]. *)
Definition SensorData_delete (obj : Z * SensorData) : orm () := λ _ s,
  (Ok (), set_sensor_data (delete obj.1 (sensor_data s)) s).

(** A line that starts with an empty line. *)
Definition after_newline (s : string) : string := String (Ascii.ascii_of_nat 10) s.

(** [test_models]: are the tables there, and the rows the system needs? *)
Definition test_models : tm bool :=
  _ ← print [PLit (after_newline "[TEST 2] Database Models")];
  tm_try_except
    (count ← orm_call SensorData_count;
     _ ← print [PLit "✓ SensorData table exists ("; PInt count; PLit " records)"];
     fan_exists ← orm_call (DeviceControl_exists "fan");
     heater_exists ← orm_call (DeviceControl_exists "heater");
     _ ← (if fan_exists : bool then
            print [PLit "✓ Fan device control exists"]
          else
            _ ← print [PLit "⚠ Fan device control not found (will be created on first use)"];
            count_warning);
     _ ← (if heater_exists : bool then
            print [PLit "✓ Heater device control exists"]
          else
            _ ← print [PLit "⚠ Heater device control not found (will be created on first use)"];
            count_warning);
     setpoint ← orm_call TemperatureSetpoint_active_first;
     _ ← match setpoint with
         | Some sp =>
             print [PLit "✓ Temperature setpoint exists: ";
                    PFloat (setpoint_temperature sp.2); PLit "°C"]
         | None =>
             _ ← print [PLit "⚠ No active temperature setpoint (will be created on first admin save)"];
             count_warning
         end;
     _ ← count_passed;
     mret true)
    (λ e,
       _ ← print [PLit "✗ Model test failed: "; PExc e];
       _ ← count_failed;
       mret false).

(** [test_sample_data_insertion]: a reading is stored, read back and
    deleted. *)
Definition test_sample_data_insertion `{Database} : tm bool :=
  _ ← print [PLit (after_newline "[TEST 6] Sample Data Insertion")];
  tm_try_except
    (sensor ← orm_call (SensorData_create 25.5%float 60.0%float);
     _ ← print [PLit "✓ Created sample sensor data (ID: "; PInt sensor.1; PLit ")"];
     retrieved ← orm_call (SensorData_get_id sensor.1);
     _ ← print [PLit "✓ Retrieved sensor data: "; PFloat (temperature retrieved.2);
                PLit "°C, "; PFloat (humidity retrieved.2); PLit "%"];
     _ ← orm_call (SensorData_delete sensor);
     _ ← print [PLit "✓ Cleanup successful"];
     _ ← count_passed;
     mret true)
    (λ e,
       _ ← print [PLit "✗ Sample data insertion failed: "; PExc e];
       _ ← count_failed;
       mret false).

(** * Properties *)

(** Unfolding one view down to its ORM calls. *)
Ltac run_view :=
  unfold api_view, login_required, require_http_methods, try_except, lift, raise,
    mbind, orm_bind, mret, orm_ret; simpl.

(** ** Tables *)

Section table_facts.
Context {A : Type}.
Implicit Types (t : gmap Z A) (P : A → bool) (o : ordering A).

Lemma max_key_bound seq t k a :
  t !! k = Some a → k ≤ map_fold (λ k' _ acc, Z.max k' acc) seq t.
Proof.
  revert k a.
  apply (map_fold_weak_ind (λ r m, ∀ k a, m !! k = Some a → k ≤ r)).
  - intros k a Hk. by rewrite lookup_empty in Hk.
  - intros i x m r _ IH k a Hk.
    destruct (decide (i = k)) as [->|Hne]; [lia|].
    rewrite lookup_insert_ne in Hk by done.
    specialize (IH k a Hk). lia.
Qed.

Lemma seq_bound seq t : seq ≤ map_fold (λ k' _ acc, Z.max k' acc) seq t.
Proof.
  apply (map_fold_weak_ind (λ r _, seq ≤ r)); [done|].
  intros i x m r _ IH. lia.
Qed.

(** The key given to a new row is not in use, and was never given before. *)
Lemma next_id_fresh seq t : t !! next_id seq t = None.
Proof.
  destruct (t !! next_id seq t) as [a|] eqn:Hk; [|done].
  apply (max_key_bound seq) in Hk. unfold next_id in Hk. lia.
Qed.

Lemma next_id_above seq t : seq < next_id seq t.
Proof. pose proof (seq_bound seq t). unfold next_id. lia. Qed.

Lemma map_fold_max_above seq t :
  (∀ k a, t !! k = Some a → k ≤ seq) →
  map_fold (λ k' _ acc, Z.max k' acc) seq t = seq.
Proof.
  apply (map_fold_weak_ind
           (λ r m, (∀ k a, m !! k = Some a → k ≤ seq) → r = seq)); [done|].
  intros i x m r Hi IH Hbound.
  rewrite IH.
  - specialize (Hbound i x (lookup_insert_eq m i x)). lia.
  - intros k a Hk. apply (Hbound k a). rewrite lookup_insert_ne; [done|].
    intros <-. congruence.
Qed.

(** Once the sequence has moved on to the key given, the next key is the
    one after, whether or not the row is still there. *)
Lemma next_id_next seq t : next_id (next_id seq t) t = next_id seq t + 1.
Proof.
  unfold next_id at 1. rewrite map_fold_max_above; [lia|].
  intros k a Hk. apply (max_key_bound seq) in Hk. unfold next_id. lia.
Qed.

Lemma lookup_objects_filter P t k a :
  objects_filter P t !! k = Some a ↔ t !! k = Some a ∧ P a = true.
Proof.
  unfold objects_filter. rewrite map_lookup_filter_Some. simpl.
  by rewrite Is_true_true.
Qed.

Lemma objects_filter_empty P t :
  objects_filter P t = ∅ ↔ ∀ k a, t !! k = Some a → P a = false.
Proof.
  rewrite map_empty. split.
  - intros Hnone k a Hk. destruct (P a) eqn:HP; [|done].
    specialize (Hnone k).
    assert (objects_filter P t !! k = Some a) as Hin
      by by apply lookup_objects_filter.
    congruence.
  - intros Hall k. destruct (objects_filter P t !! k) as [a|] eqn:Hk; [|done].
    apply lookup_objects_filter in Hk as [Hk HP].
    specialize (Hall k a Hk). congruence.
Qed.

Lemma objects_get_none P t :
  objects_filter P t = ∅ → objects_get P t = Raise DoesNotExist.
Proof. unfold objects_get. intros ->. by rewrite map_to_list_empty. Qed.

Lemma objects_get_one P t k a :
  objects_filter P t = {[ k := a ]} → objects_get P t = Ok (k, a).
Proof. unfold objects_get. intros ->. by rewrite map_to_list_singleton. Qed.

Lemma objects_get_many P t :
  (1 < size (objects_filter P t))%nat →
  objects_get P t = Raise MultipleObjectsReturned.
Proof.
  unfold objects_get. rewrite <-length_map_to_list.
  destruct (map_to_list (objects_filter P t)) as [|x [|y l]]; simpl; [lia..|done].
Qed.

(** [get] answers with a row exactly when one row matches. *)
Lemma objects_get_Ok P t k a :
  objects_get P t = Ok (k, a) → objects_filter P t = {[ k := a ]}.
Proof.
  unfold objects_get. intros Hget.
  destruct (map_to_list (objects_filter P t)) as [|x [|y l]] eqn:Hl; try done.
  injection Hget as ->.
  rewrite <-(list_to_map_to_list (objects_filter P t)), Hl. simpl.
  by rewrite insert_empty.
Qed.

Lemma objects_get_cases P t :
  (objects_filter P t = ∅ ∧ objects_get P t = Raise DoesNotExist) ∨
  (∃ k a, objects_filter P t = {[ k := a ]} ∧ objects_get P t = Ok (k, a)) ∨
  ((1 < size (objects_filter P t))%nat ∧
   objects_get P t = Raise MultipleObjectsReturned).
Proof.
  destruct (map_to_list (objects_filter P t)) as [|[k a] [|y l]] eqn:Hl.
  - left. apply map_to_list_empty_iff in Hl. auto using objects_get_none.
  - right; left. exists k, a.
    assert (objects_get P t = Ok (k, a)) as Hget
      by (unfold objects_get; by rewrite Hl).
    split; [by apply objects_get_Ok|done].
  - right; right.
    assert (1 < size (objects_filter P t))%nat as Hsize
      by (rewrite <-length_map_to_list, Hl; simpl; lia).
    auto using objects_get_many.
Qed.

(** Writing a matching row under a key: into a table without a match, or
    over the only match. *)
Lemma objects_filter_insert_first P t k a :
  objects_filter P t = ∅ → P a = true →
  objects_filter P (<[k := a]> t) = {[ k := a ]}.
Proof.
  unfold objects_filter. intros Hf HP.
  rewrite map_filter_insert_True by (simpl; by rewrite HP).
  by rewrite Hf, insert_empty.
Qed.

Lemma objects_filter_insert_over P t k a a' :
  objects_filter P t = {[ k := a ]} → P a' = true →
  objects_filter P (<[k := a']> t) = {[ k := a' ]}.
Proof.
  unfold objects_filter. intros Hf HP.
  rewrite map_filter_insert_True by (simpl; by rewrite HP).
  by rewrite Hf, insert_singleton_eq.
Qed.

Lemma objects_filter_singleton_lookup P t k a :
  objects_filter P t = {[ k := a ]} → t !! k = Some a ∧ P a = true.
Proof.
  intros Hf. apply lookup_objects_filter. rewrite Hf. apply lookup_singleton_eq.
Qed.

Lemma precedes_irrefl o x : precedes o x x = false.
Proof. unfold precedes. lia. Qed.

Lemma precedes_trans o x y z :
  precedes o x y = true → precedes o y z = true → precedes o x z = true.
Proof. unfold precedes. lia. Qed.

Lemma foldr_pick_None o (l : list (Z * A)) :
  foldr (pick o) None l = None → l = [].
Proof. destruct l as [|x l]; [done|]. simpl. by destruct (foldr _ _ l). Qed.

Lemma foldr_pick_Some o (l : list (Z * A)) x :
  foldr (pick o) None l = Some x →
  x ∈ l ∧ ∀ y, y ∈ l → precedes o y x = false.
Proof.
  revert x. induction l as [|z l IH]; intros x; [done|].
  simpl. destruct (foldr (pick o) None l) as [y0|] eqn:Hacc; simpl.
  - destruct (IH y0 eq_refl) as [Hin Hmin].
    destruct (precedes o z y0) eqn:Hz; intros [= <-].
    + split; [by left|]. intros y [->|Hy]%elem_of_cons.
      * apply precedes_irrefl.
      * destruct (precedes o y z) eqn:Hyz; [|done].
        rewrite <-(Hmin y Hy). symmetry. by eapply precedes_trans.
    + split; [by right|]. intros y [->|Hy]%elem_of_cons; auto.
  - apply foldr_pick_None in Hacc as ->. intros [= <-].
    split; [by left|]. intros y ->%list_elem_of_singleton.
    apply precedes_irrefl.
Qed.

Lemma objects_first_None o t : objects_first o t = None ↔ t = ∅.
Proof.
  unfold objects_first. split.
  - intros Hl%foldr_pick_None. by apply map_to_list_empty_iff.
  - intros ->. by rewrite map_to_list_empty.
Qed.

(** [first()] answers with a row of the table that no row precedes. *)
Lemma objects_first_Some o t k a :
  objects_first o t = Some (k, a) →
  t !! k = Some a ∧
  ∀ k' a', t !! k' = Some a' → precedes o (k', a') (k, a) = false.
Proof.
  unfold objects_first. intros [Hin Hmin]%foldr_pick_Some.
  split; [by apply elem_of_map_to_list|].
  intros k' a' Hk'. by apply Hmin, elem_of_map_to_list.
Qed.

Lemma objects_first_intro o t k a :
  t !! k = Some a →
  (∀ k' a', t !! k' = Some a' → precedes o (k', a') (k, a) = false) →
  objects_first o t = Some (k, a).
Proof.
  intros Hk Hmin.
  destruct (objects_first o t) as [[k0 a0]|] eqn:Hfirst.
  - apply objects_first_Some in Hfirst as [Hk0 Hmin0].
    specialize (Hmin k0 a0 Hk0). specialize (Hmin0 k a Hk).
    assert (k0 = k) as -> by (unfold precedes in *; simpl in *; lia).
    congruence.
  - apply objects_first_None in Hfirst as ->. by rewrite lookup_empty in Hk.
Qed.

(** With [ordering = ['-field']], no row has a larger [field]. *)
Lemma objects_first_desc (field : A → Z) t k a :
  objects_first (desc field) t = Some (k, a) →
  t !! k = Some a ∧ ∀ k' a', t !! k' = Some a' → field a' ≤ field a.
Proof.
  intros [Hk Hmin]%objects_first_Some. split; [done|].
  intros k' a' Hk'. specialize (Hmin k' a' Hk').
  unfold precedes in Hmin. simpl in Hmin. lia.
Qed.

(** A row whose [field] exceeds every other row's is the first. *)
Lemma objects_first_desc_latest (field : A → Z) t k a :
  t !! k = Some a →
  (∀ k' a', t !! k' = Some a' → k' ≠ k → field a' < field a) →
  objects_first (desc field) t = Some (k, a).
Proof.
  intros Hk Hlt. apply objects_first_intro; [done|].
  intros k' a' Hk'. destruct (decide (k' = k)) as [->|Hne].
  - assert (a' = a) as -> by congruence. apply precedes_irrefl.
  - specialize (Hlt k' a' Hk' Hne). unfold precedes. simpl. lia.
Qed.

End table_facts.

(** ** The setpoint upsert *)

Section setpoint.
Context `{FloatSyntax} `{Database} `{Clock}.

(** What [update_setpoint] does once the body gave a temperature: it
    follows the outcome of [get(is_active=True)], and then of the write. *)
Lemma update_setpoint_run_any request now s u d t :
  user request = Some u →
  method request = POST →
  body request = Ok (VDict d) →
  py_float (default (VFloat 25.0%float) (d !! "setpoint")) = Ok t →
  update_setpoint request now s =
    match objects_get is_active (temperature_setpoint s) with
    | Ok (k, r) =>
        if db_accepts t then
          (Ok (setpoint_updated t),
           set_temperature_setpoint
             (<[k := {| setpoint_temperature := t; created_by := Some u;
                        created_at := created_at r; updated_at := now;
                        is_active := is_active r |}]> (temperature_setpoint s)) s)
        else (Ok (request_failed DatabaseError), s)
    | Raise DoesNotExist =>
        if db_accepts t then
          (Ok (setpoint_updated t),
           insert_temperature_setpoint
             (next_id (temperature_setpoint_seq s) (temperature_setpoint s))
             {| setpoint_temperature := t; created_by := Some u;
                created_at := first_reading now; updated_at := now;
                is_active := true |} s)
        else (Ok (request_failed DatabaseError), s)
    | Raise e => (Ok (request_failed e), s)
    end.
Proof.
  intros Hu Hm Hb Ht. unfold update_setpoint. run_view.
  rewrite Hu, Hm, Hb. simpl. rewrite Ht. simpl.
  unfold TemperatureSetpoint_get_or_create. run_view.
  destruct (objects_get is_active (temperature_setpoint s)) as [[k r]|e]; simpl.
  - unfold TemperatureSetpoint_save. simpl. by destruct (db_accepts t).
  - destruct e; try done.
    unfold TemperatureSetpoint_create, TemperatureSetpoint_save. simpl.
    destruct (db_accepts t); simpl; [|done].
    unfold insert_temperature_setpoint, set_temperature_setpoint. simpl.
    by rewrite insert_insert_eq.
Qed.

(** The same when the database takes the temperature. *)
Lemma update_setpoint_run request now s u d t :
  user request = Some u →
  method request = POST →
  body request = Ok (VDict d) →
  py_float (default (VFloat 25.0%float) (d !! "setpoint")) = Ok t →
  db_accepts t = true →
  update_setpoint request now s =
    match objects_get is_active (temperature_setpoint s) with
    | Ok (k, r) =>
        (Ok (setpoint_updated t),
         set_temperature_setpoint
           (<[k := {| setpoint_temperature := t; created_by := Some u;
                      created_at := created_at r; updated_at := now;
                      is_active := is_active r |}]> (temperature_setpoint s)) s)
    | Raise DoesNotExist =>
        (Ok (setpoint_updated t),
         insert_temperature_setpoint
           (next_id (temperature_setpoint_seq s) (temperature_setpoint s))
           {| setpoint_temperature := t; created_by := Some u;
              created_at := first_reading now; updated_at := now;
              is_active := true |} s)
    | Raise e => (Ok (request_failed e), s)
    end.
Proof.
  intros Hu Hm Hb Ht Hacc.
  rewrite (update_setpoint_run_any _ _ _ _ _ _ Hu Hm Hb Ht), Hacc.
  destruct (objects_get _ _) as [[k r]|e]; [done|]. by destruct e.
Qed.

(** A temperature the database refuses is answered 400 and nothing is
    written; with several active rows [get] has raised before. *)
Lemma update_setpoint_refused request now s u d t :
  user request = Some u →
  method request = POST →
  body request = Ok (VDict d) →
  py_float (default (VFloat 25.0%float) (d !! "setpoint")) = Ok t →
  db_accepts t = false →
  ∃ e, update_setpoint request now s = (Ok (request_failed e), s) ∧
       ((size (active s) ≤ 1)%nat → e = DatabaseError).
Proof.
  intros Hu Hm Hb Ht Hacc.
  rewrite (update_setpoint_run_any _ _ _ _ _ _ Hu Hm Hb Ht), Hacc.
  destruct (objects_get_cases is_active (temperature_setpoint s))
    as [[_ ->]|[(k & r & _ & ->)|[Hmany ->]]].
  - by exists DatabaseError.
  - by exists DatabaseError.
  - exists MultipleObjectsReturned. split; [done|lia].
Qed.

(** Either the request leaves the store as it is, or it is a logged-in POST
    whose body gives a temperature that the database takes. *)
Lemma update_setpoint_cases request now s :
  (update_setpoint request now s).2 = s ∨
  ∃ u d t, user request = Some u ∧ method request = POST ∧
           body request = Ok (VDict d) ∧
           py_float (default (VFloat 25.0%float) (d !! "setpoint")) = Ok t ∧
           db_accepts t = true.
Proof.
  destruct (user request) as [u|] eqn:Hu;
    [|left; unfold update_setpoint; run_view; by rewrite Hu].
  destruct (decide (method request = POST)) as [Hm|Hm]; cycle 1.
  { left. unfold update_setpoint. run_view. rewrite Hu.
    rewrite bool_decide_eq_false_2; [done|].
    by intros ?%list_elem_of_singleton. }
  destruct (body request) as [v|e] eqn:Hb; cycle 1.
  { left. unfold update_setpoint. run_view. by rewrite Hu, Hm, Hb. }
  destruct v as [| | | | | |d];
    try (left; unfold update_setpoint; run_view; by rewrite Hu, Hm, Hb).
  destruct (py_float (default (VFloat 25.0%float) (d !! "setpoint")))
    as [t|e] eqn:Ht.
  - destruct (db_accepts t) eqn:Hacc; [right; by exists u, d, t|].
    left. by destruct (update_setpoint_refused _ now s _ _ _ Hu Hm Hb Ht Hacc)
      as (e & -> & _).
  - left. unfold update_setpoint. run_view. rewrite Hu, Hm, Hb. simpl.
    by rewrite Ht.
Qed.

(** Once an active row exists, no request makes [update_setpoint] add a
    row: the keys of the table and of its active rows stay the same. *)
Lemma update_setpoint_no_second_row request now s :
  active s ≠ ∅ →
  let s' := (update_setpoint request now s).2 in
  dom (temperature_setpoint s') = dom (temperature_setpoint s) ∧
  dom (active s') = dom (active s).
Proof.
  intros Hact. simpl.
  destruct (update_setpoint_cases request now s)
    as [->|(u & d & t & Hu & Hm & Hb & Ht & Hacc)]; [done|].
  rewrite (update_setpoint_run _ _ _ _ _ _ Hu Hm Hb Ht Hacc).
  destruct (objects_get_cases is_active (temperature_setpoint s))
    as [[Hf _]|[(k & r & Hf & ->)|[_ ->]]]; [done| |done].
  simpl. destruct (objects_filter_singleton_lookup _ _ _ _ Hf) as [Hk Hr].
  split.
  - apply dom_insert_lookup_L. by rewrite Hk.
  - rewrite (objects_filter_insert_over _ _ _ _ _ Hf) by done.
    by rewrite Hf, !dom_singleton_L.
Qed.

(** The upsert on a database with at most one active row.
    [update_setpoint], on a logged-in POST whose body gives a temperature
    [t] that the database takes: when no row is active it creates one,
    active, with [t] and the user, under the next key of the sequence, which
    is not in use, [created_at] from the first reading of the clock and
    [updated_at] from the last; when exactly one row is active it writes [t],
    the user and the last reading into that row, under the same key, and
    keeps its [created_at]; and whatever request comes second, it adds no
    row and no active row; a second good request leaves its temperature in
    the one active row. *)
Theorem update_setpoint_upsert request now s u d v t :
  user request = Some u →
  method request = POST →
  body request = Ok (VDict d) →
  d !! "setpoint" = Some v →
  py_float v = Ok t →
  db_accepts t = true →
  let tbl := temperature_setpoint s in
  let s1 := (update_setpoint request now s).2 in
  (active s = ∅ →
     let k := next_id (temperature_setpoint_seq s) tbl in
     tbl !! k = None ∧ temperature_setpoint_seq s < k ∧
     update_setpoint request now s =
       (Ok (setpoint_updated t),
        insert_temperature_setpoint k
          {| setpoint_temperature := t; created_by := Some u;
             created_at := first_reading now; updated_at := now;
             is_active := true |} s)) ∧
  (∀ k r, active s = {[ k := r ]} →
     update_setpoint request now s =
       (Ok (setpoint_updated t),
        set_temperature_setpoint
          (<[k := {| setpoint_temperature := t; created_by := Some u;
                     created_at := created_at r; updated_at := now;
                     is_active := true |}]> tbl) s)) ∧
  (∀ request2 now2,
     let s2 := (update_setpoint request2 now2 s1).2 in
     dom (temperature_setpoint s2) = dom (temperature_setpoint s1) ∧
     dom (active s2) = dom (active s1)) ∧
  (∀ request2 now2 u2 d2 v2 t2,
     user request2 = Some u2 →
     method request2 = POST →
     body request2 = Ok (VDict d2) →
     d2 !! "setpoint" = Some v2 →
     py_float v2 = Ok t2 →
     db_accepts t2 = true →
     (size (active s) ≤ 1)%nat →
     let s2 := (update_setpoint request2 now2 s1).2 in
     ∃ k r1 r2,
       active s1 = {[ k := r1 ]} ∧ setpoint_temperature r1 = t ∧
       active s2 = {[ k := r2 ]} ∧ setpoint_temperature r2 = t2 ∧
       created_by r2 = Some u2).
Proof.
  intros Hu Hm Hb Hv Ht Hacc. simpl.
  assert (py_float (default (VFloat 25.0%float) (d !! "setpoint")) = Ok t)
    as Ht' by by rewrite Hv.
  pose proof (update_setpoint_run request now s u d t Hu Hm Hb Ht' Hacc) as Hrun.
  assert (active s = ∅ →
          active (update_setpoint request now s).2 =
            {[ next_id (temperature_setpoint_seq s) (temperature_setpoint s) :=
                 {| setpoint_temperature := t; created_by := Some u;
                    created_at := first_reading now; updated_at := now;
                    is_active := true |} ]}) as Hnone.
  { intros Hf. rewrite Hrun, (objects_get_none _ _ Hf). simpl.
    by apply objects_filter_insert_first. }
  assert (∀ k r, active s = {[ k := r ]} →
          active (update_setpoint request now s).2 =
            {[ k := {| setpoint_temperature := t; created_by := Some u;
                       created_at := created_at r; updated_at := now;
                       is_active := true |} ]}) as Hone.
  { intros k r Hf. rewrite Hrun, (objects_get_one _ _ _ _ Hf). simpl.
    destruct (objects_filter_singleton_lookup _ _ _ _ Hf) as [_ ->].
    by eapply objects_filter_insert_over. }
  split; [|split; [|split]].
  - intros Hf. split; [apply next_id_fresh|]. split; [apply next_id_above|].
    by rewrite Hrun, (objects_get_none _ _ Hf).
  - intros k r Hf. rewrite Hrun, (objects_get_one _ _ _ _ Hf).
    by destruct (objects_filter_singleton_lookup _ _ _ _ Hf) as [_ ->].
  - intros request2 now2. apply update_setpoint_no_second_row.
    destruct (objects_get_cases is_active (temperature_setpoint s))
      as [[Hf _]|[(k & r & Hf & _)|[Hsize Hget]]].
    + rewrite (Hnone Hf). apply insert_non_empty.
    + rewrite (Hone k r Hf). apply insert_non_empty.
    + rewrite Hrun, Hget. simpl. intros Hf. rewrite Hf in Hsize.
      rewrite map_size_empty in Hsize. lia.
  - intros request2 now2 u2 d2 v2 t2 Hu2 Hm2 Hb2 Hv2 Ht2 Hacc2 Hsize.
    assert (py_float (default (VFloat 25.0%float) (d2 !! "setpoint")) = Ok t2)
      as Ht2' by by rewrite Hv2.
    assert (∃ k r1, active (update_setpoint request now s).2 = {[ k := r1 ]} ∧
                    setpoint_temperature r1 = t) as (k & r1 & Hf1 & Hr1).
    { destruct (objects_get_cases is_active (temperature_setpoint s))
        as [[Hf _]|[(k & r & Hf & _)|[Hmany _]]]; [| |lia].
      - eexists _, _. split; [by apply Hnone|done].
      - eexists _, _. split; [by apply Hone|done]. }
    exists k, r1. eexists. split; [done|]. split; [done|].
    rewrite (update_setpoint_run request2 now2 _ u2 d2 t2 Hu2 Hm2 Hb2 Ht2' Hacc2).
    rewrite (objects_get_one _ _ _ _ Hf1). simpl.
    destruct (objects_filter_singleton_lookup _ _ _ _ Hf1) as [_ ->].
    split; [by eapply objects_filter_insert_over|by split].
Qed.
End setpoint.

(** On the empty database, setting 27.5 at time 100 creates row 1, created
    at the first reading of the clock and updated at the last. *)
Lemma update_setpoint_upsert_witness :
  @update_setpoint zero_only_syntax mysql sample_clock
    (setpoint_request 7 (VFloat 27.5%float)) 100 empty_store =
    (Ok (setpoint_updated 27.5%float),
     insert_temperature_setpoint 1
       {| setpoint_temperature := 27.5%float; created_by := Some 7;
          created_at := 97; updated_at := 100; is_active := true |}
       empty_store).
Proof.
  destruct (@update_setpoint_upsert zero_only_syntax mysql sample_clock
              (setpoint_request 7 (VFloat 27.5%float)) 100 empty_store 7
              {[ "setpoint" := VFloat 27.5%float ]} (VFloat 27.5%float) 27.5%float
              eq_refl eq_refl eq_refl eq_refl eq_refl eq_refl) as [Hnone _].
  destruct (Hnone eq_refl) as (_ & _ & Hrun). exact Hrun.
Defined.

(** ** Several active setpoints *)

Section several_active.
Context `{FloatSyntax} `{Database} `{Clock}.

(** With two or more active rows [get(is_active=True)] raises, so
    [update_setpoint] answers 400 and writes nothing. *)
Lemma update_setpoint_several_active request now s u d t :
  user request = Some u →
  method request = POST →
  body request = Ok (VDict d) →
  py_float (default (VFloat 25.0%float) (d !! "setpoint")) = Ok t →
  (1 < size (active s))%nat →
  update_setpoint request now s = (Ok (request_failed MultipleObjectsReturned), s).
Proof.
  intros Hu Hm Hb Ht Hsize.
  rewrite (update_setpoint_run_any _ _ _ _ _ _ Hu Hm Hb Ht).
  by rewrite (objects_get_many _ _ Hsize).
Qed.
End several_active.

(** The read endpoint answers from the active row with the latest
    [updated_at], however many rows are active. *)
Lemma api_get_setpoint_latest_active request now s :
  method request = GET →
  query_get (query_params request) "api_key" "" = VALID_API_KEY →
  active s ≠ ∅ →
  ∃ k r,
    temperature_setpoint s !! k = Some r ∧ is_active r = true ∧
    (∀ k' r', temperature_setpoint s !! k' = Some r' → is_active r' = true →
              updated_at r' ≤ updated_at r) ∧
    api_get_setpoint request now s =
      (Ok (setpoint_response (setpoint_temperature r) (RDatetime (updated_at r))), s).
Proof.
  intros Hm Hkey Hact. unfold api_get_setpoint. run_view.
  rewrite Hm, Hkey. simpl.
  destruct (objects_first TemperatureSetpoint_ordering (active s))
    as [[k r]|] eqn:Hfirst; [|by apply objects_first_None in Hfirst].
  apply objects_first_desc in Hfirst as [Hk Hmax].
  apply lookup_objects_filter in Hk as [Hk Hr].
  exists k, r. repeat split; try done.
  intros k' r' Hk' Hr'. apply (Hmax k' r'). by apply lookup_objects_filter.
Qed.

(** C1.  On a database with two active setpoint rows a good
    [update_setpoint] request (temperature 30.0, user 9) finds active rows
    and overwrites none of them: it answers 400 with the text of
    [MultipleObjectsReturned], and both rows keep their temperature and
    their owner. *)
Theorem update_setpoint_overwrites_neither_active_row :
  let out := @update_setpoint zero_only_syntax mysql sample_clock
               (setpoint_request 9 (VFloat 30.0%float)) 100 two_active_store in
  out.1 = Ok (request_failed MultipleObjectsReturned) ∧
  temperature_setpoint out.2 !! 1 =
    Some {| setpoint_temperature := 24.0%float; created_by := Some 7;
            created_at := 10; updated_at := 10; is_active := true |} ∧
  temperature_setpoint out.2 !! 2 =
    Some {| setpoint_temperature := 26.0%float; created_by := Some 7;
            created_at := 20; updated_at := 20; is_active := true |} ∧
  size (temperature_setpoint out.2) = 2%nat.
Proof.
  assert (@update_setpoint zero_only_syntax mysql sample_clock
            (setpoint_request 9 (VFloat 30.0%float)) 100 two_active_store =
          (Ok (request_failed MultipleObjectsReturned), two_active_store)) as ->.
  { apply (update_setpoint_several_active _ _ _ 9
             {[ "setpoint" := VFloat 30.0%float ]} 30.0%float); try done.
    vm_compute. lia. }
  by vm_compute.
Qed.

(** C9.  On a database with two active setpoint rows the read endpoint
    answers from the one updated last (key 2), while [update_setpoint]
    overwrites neither row: it answers 400 with the text of
    [MultipleObjectsReturned] and the database is as before. *)
Theorem update_setpoint_two_active_rows :
  api_get_setpoint (device_get VALID_API_KEY) 100 two_active_store =
    (Ok (setpoint_response 26.0%float (RDatetime 20)), two_active_store) ∧
  @update_setpoint zero_only_syntax mysql sample_clock
    (setpoint_request 7 (VFloat 30.0%float)) 100 two_active_store =
    (Ok (request_failed MultipleObjectsReturned), two_active_store).
Proof.
  split; [by vm_compute|].
  apply (update_setpoint_several_active _ _ _ 7 {[ "setpoint" := VFloat 30.0%float ]}
           30.0%float); try done.
  vm_compute. lia.
Qed.

(** ** A body without a setpoint, and the failures of [update_setpoint] *)

(** C10, as stated, does not hold: it would make every 400 of a logged-in
    POST come from a body that is not valid JSON or from a present setpoint
    that [float] rejects; the body [[]] is valid JSON, holds no setpoint, and
    is answered 400. *)
Lemma update_setpoint_400_without_setpoint :
  ¬ (∀ (H : FloatSyntax) (D : Database) (C : Clock) request now s u,
       user request = Some u →
       method request = POST →
       (∀ d, body request = Ok (VDict d) → d !! "setpoint" = None →
             ∃ s', update_setpoint request now s =
                     (Ok (setpoint_updated 25.0%float), s')) ∧
       (∀ content s',
          update_setpoint request now s =
            (Ok (JsonResponse content HTTP_400_BAD_REQUEST), s') →
          (∃ e, body request = Raise e) ∨
          (∃ d v e, body request = Ok (VDict d) ∧ d !! "setpoint" = Some v ∧
                    py_float v = Raise e))).
Proof.
  intros Hclaim.
  destruct (Hclaim zero_only_syntax mysql sample_clock list_body_request 100
              empty_store 7 eq_refl eq_refl) as [_ Honly].
  destruct (Honly _ _ eq_refl) as [[e He]|(d & v & e & Hd & _)]; discriminate.
Qed.

Section setpoint_failures.
Context `{FloatSyntax} `{Database} `{Clock}.

(** C10, amended.  On a database with at most one active setpoint row, for
    a logged-in POST: a body that is a JSON object without ['setpoint'] is
    served with 25.0, which ends up in the one active row; a 400 comes only
    from a body that is not valid JSON, a body that is not a JSON object, a
    present ['setpoint'] that [float] rejects, or a present ['setpoint']
    that [float] accepts and the database refuses; and the last of these is
    answered 400 with the text of the database's exception, nothing
    written. *)
Theorem update_setpoint_default_and_failures request now s u :
  (size (active s) ≤ 1)%nat →
  user request = Some u →
  method request = POST →
  (∀ d, body request = Ok (VDict d) → d !! "setpoint" = None →
     ∃ s' k r,
       update_setpoint request now s = (Ok (setpoint_updated 25.0%float), s') ∧
       active s' = {[ k := r ]} ∧ setpoint_temperature r = 25.0%float) ∧
  (∀ content s',
     update_setpoint request now s =
       (Ok (JsonResponse content HTTP_400_BAD_REQUEST), s') →
     (∃ e, body request = Raise e) ∨
     (∃ v, body request = Ok v ∧ ∀ d, v ≠ VDict d) ∨
     (∃ d v e, body request = Ok (VDict d) ∧ d !! "setpoint" = Some v ∧
               py_float v = Raise e) ∨
     (∃ d v t, body request = Ok (VDict d) ∧ d !! "setpoint" = Some v ∧
               py_float v = Ok t ∧ db_accepts t = false)) ∧
  (∀ d v t, body request = Ok (VDict d) → d !! "setpoint" = Some v →
            py_float v = Ok t → db_accepts t = false →
            update_setpoint request now s = (Ok (request_failed DatabaseError), s)).
Proof.
  intros Hsize Hu Hm.
  assert (∀ d t, body request = Ok (VDict d) →
            py_float (default (VFloat 25.0%float) (d !! "setpoint")) = Ok t →
            db_accepts t = true →
            ∃ s' k r,
              update_setpoint request now s = (Ok (setpoint_updated t), s') ∧
              active s' = {[ k := r ]} ∧ setpoint_temperature r = t) as Hok.
  { intros d t Hb Ht Hacc.
    rewrite (update_setpoint_run _ _ _ _ _ _ Hu Hm Hb Ht Hacc).
    destruct (objects_get_cases is_active (temperature_setpoint s))
      as [[Hf ->]|[(k & r & Hf & ->)|[Hmany _]]]; [| |lia].
    - eexists _, _, _. split; [done|]. simpl.
      split; [by apply objects_filter_insert_first|done].
    - destruct (objects_filter_singleton_lookup _ _ _ _ Hf) as [_ Hr].
      eexists _, _, _. split; [done|]. simpl.
      split; [by eapply objects_filter_insert_over|done]. }
  split; [|split].
  - intros d Hb Hd. apply (Hok d); [done|by rewrite Hd|].
    by apply db_accepts_finite.
  - intros content s' Hrun.
    destruct (body request) as [v|e] eqn:Hb; [|left; by exists e].
    right.
    destruct v as [| | | | | |d];
      try (left; eexists; split; [done|]; by intros d').
    right.
    destruct (d !! "setpoint") as [v|] eqn:Hd.
    + destruct (py_float v) as [t|e] eqn:Ht; [|left; by exists d, v, e].
      destruct (db_accepts t) eqn:Hacc; [|right; by exists d, v, t].
      destruct (Hok d t eq_refl) as (s'' & k & r & Hrun' & _);
        [by rewrite Hd|done|].
      rewrite Hrun' in Hrun. discriminate.
    + destruct (Hok d 25.0%float eq_refl) as (s'' & k & r & Hrun' & _);
        [by rewrite Hd|by apply db_accepts_finite|].
      rewrite Hrun' in Hrun. discriminate.
  - intros d v t Hb Hd Ht Hacc.
    destruct (update_setpoint_refused request now s u d t Hu Hm Hb) as (e & -> & He);
      [by rewrite Hd|done|]. by rewrite (He Hsize).
Qed.
End setpoint_failures.

(** The body [{}] on the empty database: 25.0 is stored in a new row. *)
Lemma update_setpoint_default_and_failures_witness :
  ∃ s' k r,
    @update_setpoint zero_only_syntax mysql sample_clock
      {| method := POST; user := Some 7; body := Ok (VDict ∅);
         data := Ok (VDict ∅); query_params := [] |} 100 empty_store =
      (Ok (setpoint_updated 25.0%float), s') ∧
    active s' = {[ k := r ]} ∧ setpoint_temperature r = 25.0%float.
Proof.
  assert (size (active empty_store) ≤ 1)%nat as Hsize by (vm_compute; lia).
  destruct (@update_setpoint_default_and_failures zero_only_syntax mysql sample_clock
              {| method := POST; user := Some 7; body := Ok (VDict ∅);
                 data := Ok (VDict ∅); query_params := [] |} 100 empty_store 7
              Hsize eq_refl eq_refl) as [Hdefault _].
  exact (Hdefault ∅ eq_refl eq_refl).
Defined.

(** ** Reading the setpoint *)

(** C5.  With a valid key and no active setpoint row, [api_get_setpoint]
    answers 200 with the temperature 25.0 and [updated_at] [None], and the
    database is as before: no row is written. *)
Theorem api_get_setpoint_default request now s :
  method request = GET →
  query_get (query_params request) "api_key" "" = VALID_API_KEY →
  (∀ k r, temperature_setpoint s !! k = Some r → is_active r = false) →
  api_get_setpoint request now s = (Ok (setpoint_response 25.0%float RNone), s).
Proof.
  intros Hm Hkey Hnone. unfold api_get_setpoint. run_view.
  rewrite Hm, Hkey. simpl.
  apply objects_filter_empty in Hnone. rewrite Hnone.
  by rewrite (proj2 (objects_first_None _ ∅) eq_refl).
Qed.

Lemma api_get_setpoint_default_witness :
  api_get_setpoint (device_get VALID_API_KEY) 100 inactive_store =
    (Ok (setpoint_response 25.0%float RNone), inactive_store).
Proof.
  apply api_get_setpoint_default; [reflexivity|reflexivity|].
  intros k r Hk. unfold inactive_store in Hk. simpl in Hk.
  apply lookup_singleton_Some in Hk as [_ <-]. reflexivity.
Defined.

(** ** Device control *)

Lemma allowed_device_name name :
  existsb (str_eq (VStr name)) ["fan"; "heater"] = true ↔ name ∈ ["fan"; "heater"].
Proof.
  simpl. rewrite orb_false_r, orb_true_iff, !bool_decide_eq_true.
  rewrite elem_of_cons, list_elem_of_singleton. done.
Qed.

(** What [control_device] does for an allowed device: it follows the outcome
    of [get(device=name)]. *)
Lemma control_device_run request now s u d name :
  user request = Some u →
  method request = POST →
  body request = Ok (VDict d) →
  d !! "device" = Some (VStr name) →
  name ∈ ["fan"; "heater"] →
  let action := default VNone (d !! "action") in
  let on := str_eq action "on" in
  control_device request now s =
    match objects_get (device_is name) (device_control s) with
    | Ok (k, r) =>
        (Ok (device_switched (VStr name) action on),
         set_device_control
           (<[k := {| device := device r; is_on := on; last_updated := now |}]>
              (device_control s)) s)
    | Raise DoesNotExist =>
        (Ok (device_switched (VStr name) action on),
         insert_device_control
           (next_id (device_control_seq s) (device_control s))
           {| device := name; is_on := on; last_updated := now |} s)
    | Raise e => (Ok (request_failed e), s)
    end.
Proof.
  intros Hu Hm Hb Hd Hname. simpl. unfold control_device. run_view.
  rewrite Hu, Hm, Hb. simpl. rewrite Hd. simpl.
  apply allowed_device_name in Hname. simpl in Hname. rewrite Hname. simpl.
  unfold DeviceControl_get_or_create. run_view.
  unfold device_switched.
  destruct (objects_get (device_is name) (device_control s)) as [[k r]|e]; simpl.
  - by destruct (py_upper _).
  - destruct e; try done.
    unfold insert_device_control, set_device_control. simpl.
    rewrite insert_insert_eq.
    by destruct (py_upper _).
Qed.

(** A device that compares unequal to both allowed names is turned away
    before any ORM call. *)
Lemma control_device_not_allowed request now s u d :
  user request = Some u →
  method request = POST →
  body request = Ok (VDict d) →
  str_eq (default VNone (d !! "device")) "fan" = false →
  str_eq (default VNone (d !! "device")) "heater" = false →
  control_device request now s = (Ok invalid_device, s).
Proof.
  intros Hu Hm Hb Hfan Hheater. unfold control_device. run_view.
  rewrite Hu, Hm, Hb. simpl. by rewrite Hfan, Hheater.
Qed.

Lemma str_eq_false v name : v ≠ VStr name → str_eq v name = false.
Proof.
  destruct v; simpl; try done. intros Hne. apply bool_decide_eq_false. congruence.
Qed.

(** C8.  A logged-in POST whose body names a device other than ['fan'] and
    ['heater'] (or names none) is answered 400 with the error
    ['Invalid device'], and the database is as before. *)
Theorem control_device_invalid_device request now s u d :
  user request = Some u →
  method request = POST →
  body request = Ok (VDict d) →
  default VNone (d !! "device") ≠ VStr "fan" →
  default VNone (d !! "device") ≠ VStr "heater" →
  control_device request now s = (Ok invalid_device, s).
Proof.
  intros Hu Hm Hb Hfan Hheater.
  apply str_eq_false in Hfan. apply str_eq_false in Hheater.
  by eapply control_device_not_allowed.
Qed.

Lemma control_device_invalid_device_witness :
  control_device
    {| method := POST; user := Some 7;
       body := Ok (VDict {[ "device" := VStr "pump"; "action" := VStr "on" ]});
       data := Ok (VDict ∅); query_params := [] |} 100 empty_store =
    (Ok invalid_device, empty_store).
Proof.
  apply (control_device_invalid_device _ _ _ 7
           {[ "device" := VStr "pump"; "action" := VStr "on" ]});
    [reflexivity|reflexivity|reflexivity|discriminate|discriminate].
Defined.

Lemma objects_first_singleton {A} (o : ordering A) k a :
  objects_first o {[ k := a ]} = Some (k, a).
Proof. unfold objects_first. by rewrite map_to_list_singleton. Qed.

(** With a valid key [api_get_device_status] answers from the first row of
    each device and writes nothing. *)
Lemma api_get_device_status_run request now s :
  method request = GET →
  query_get (query_params request) "api_key" "" = VALID_API_KEY →
  api_get_device_status request now s =
    (Ok (Response
           {[ "fan" := device_entry (objects_first by_pk (rows_of "fan" s));
              "heater" := device_entry (objects_first by_pk (rows_of "heater" s)) ]}
           HTTP_200_OK), s).
Proof.
  intros Hm Hkey. unfold api_get_device_status. run_view. by rewrite Hm, Hkey.
Qed.

(** C7.  With a valid key, [api_get_device_status] answers 200 and leaves the
    database as it is; for each of ['fan'] and ['heater'] the answer holds
    [is_on] [False] and [last_updated] [None] when the device has no row, and
    the [is_on] and [last_updated] of the device's row when it has one: the
    row of smallest key, which under [unique_together] is the only one. *)
Theorem api_get_device_status_reads request now s :
  method request = GET →
  query_get (query_params request) "api_key" "" = VALID_API_KEY →
  ∃ content,
    api_get_device_status request now s = (Ok (Response content HTTP_200_OK), s) ∧
    ∀ name, name ∈ ["fan"; "heater"] →
      ((∀ k r, device_control s !! k = Some r → device r ≠ name) →
         content !! name =
           Some (RDict {[ "is_on" := RBool false; "last_updated" := RNone ]})) ∧
      (∀ k r,
         device_control s !! k = Some r → device r = name →
         (∀ k' r', device_control s !! k' = Some r' → device r' = name → k ≤ k') →
         content !! name =
           Some (RDict {[ "is_on" := RBool (is_on r);
                          "last_updated" := RDatetime (last_updated r) ]})).
Proof.
  intros Hm Hkey. eexists. split; [by apply api_get_device_status_run|].
  assert (∀ name,
            ((∀ k r, device_control s !! k = Some r → device r ≠ name) →
               objects_first by_pk (rows_of name s) = None) ∧
            (∀ k r,
               device_control s !! k = Some r → device r = name →
               (∀ k' r', device_control s !! k' = Some r' → device r' = name →
                         k ≤ k') →
               objects_first by_pk (rows_of name s) = Some (k, r))) as Hfirst.
  { intros name. split.
    - intros Hnone. apply objects_first_None, objects_filter_empty.
      intros k r Hk. apply bool_decide_eq_false. eauto.
    - intros k r Hk Hr Hmin. apply objects_first_intro.
      + apply lookup_objects_filter. split; [done|]. by apply bool_decide_eq_true.
      + intros k' r' [Hk' Hr']%lookup_objects_filter.
        apply bool_decide_eq_true in Hr'. specialize (Hmin k' r' Hk' Hr').
        unfold precedes. simpl. lia. }
  intros name [->|[->|[]%elem_of_nil]%elem_of_cons]%elem_of_cons.
  - destruct (Hfirst "fan") as [Hnone Hsome]. split.
    + intros Hno. by rewrite lookup_insert_eq, (Hnone Hno).
    + intros k r Hk Hr Hmin. by rewrite lookup_insert_eq, (Hsome k r Hk Hr Hmin).
  - destruct (Hfirst "heater") as [Hnone Hsome]. split.
    + intros Hno. rewrite lookup_insert_ne by done.
      by rewrite lookup_singleton_eq, (Hnone Hno).
    + intros k r Hk Hr Hmin. rewrite lookup_insert_ne by done.
      by rewrite lookup_singleton_eq, (Hsome k r Hk Hr Hmin).
Qed.

Lemma api_get_device_status_reads_witness :
  ∃ content,
    api_get_device_status (device_get VALID_API_KEY) 100 fan_only_store =
      (Ok (Response content HTTP_200_OK), fan_only_store) ∧
    content !! "fan" =
      Some (RDict {[ "is_on" := RBool true; "last_updated" := RDatetime 50 ]}) ∧
    content !! "heater" =
      Some (RDict {[ "is_on" := RBool false; "last_updated" := RNone ]}).
Proof.
  destruct (api_get_device_status_reads (device_get VALID_API_KEY) 100
              fan_only_store eq_refl eq_refl) as (content & Hrun & Hcontent).
  exists content. split; [exact Hrun|]. split.
  - assert ("fan" ∈ ["fan"; "heater"]) as Hin by (by left).
    destruct (Hcontent "fan" Hin) as [_ Hrow].
    apply (Hrow 1 {| device := "fan"; is_on := true; last_updated := 50 |});
      [reflexivity|reflexivity|].
    intros k' r' Hk' _. unfold fan_only_store in Hk'. simpl in Hk'.
    apply lookup_singleton_Some in Hk' as [<- _]. lia.
  - assert ("heater" ∈ ["fan"; "heater"]) as Hin by (right; by left).
    destruct (Hcontent "heater" Hin) as [Hnone _].
    apply Hnone. intros k r Hk. unfold fan_only_store in Hk. simpl in Hk.
    apply lookup_singleton_Some in Hk as [_ <-]. discriminate.
Defined.

(** ** One row per device *)

Lemma unique_device_insert s s' k r :
  unique_device s →
  device_control s' = <[k := r]> (device_control s) →
  (∀ k' r', device_control s !! k' = Some r' → device r' = device r → k' = k) →
  unique_device s'.
Proof.
  intros Huniq Hs' Hk k1 k2 r1 r2. rewrite Hs'.
  destruct (decide (k1 = k)) as [->|Hne1], (decide (k2 = k)) as [->|Hne2];
    [done|..].
  - rewrite lookup_insert_eq, lookup_insert_ne by done.
    intros [= <-] Hk2 Hdev. symmetry. by eapply Hk.
  - rewrite lookup_insert_ne, lookup_insert_eq by done.
    intros Hk1 [= <-] Hdev. by eapply Hk.
  - rewrite !lookup_insert_ne by done. apply Huniq.
Qed.

(** Under the constraint the rows of a device are its one row. *)
Lemma unique_device_rows s k r :
  unique_device s →
  device_control s !! k = Some r →
  rows_of (device r) s = {[ k := r ]}.
Proof.
  intros Huniq Hk. apply map_eq. intros k'.
  destruct (decide (k' = k)) as [->|Hne].
  - rewrite lookup_singleton_eq. apply lookup_objects_filter.
    split; [done|]. by apply bool_decide_eq_true.
  - rewrite lookup_singleton_ne by done.
    destruct (rows_of (device r) s !! k') as [r'|] eqn:Hk'; [|done].
    apply lookup_objects_filter in Hk' as [Hk' Hr'].
    apply bool_decide_eq_true in Hr'. destruct Hne. by eapply Huniq.
Qed.

(** Either [control_device] writes nothing, or the request is a logged-in
    POST naming an allowed device. *)
Lemma control_device_cases request now s :
  (control_device request now s).2 = s ∨
  ∃ u d name, user request = Some u ∧ method request = POST ∧
              body request = Ok (VDict d) ∧ d !! "device" = Some (VStr name) ∧
              name ∈ ["fan"; "heater"].
Proof.
  destruct (user request) as [u|] eqn:Hu;
    [|left; unfold control_device; run_view; by rewrite Hu].
  destruct (decide (method request = POST)) as [Hm|Hm]; cycle 1.
  { left. unfold control_device. run_view. rewrite Hu.
    rewrite bool_decide_eq_false_2; [done|].
    by intros ?%list_elem_of_singleton. }
  destruct (body request) as [v|e] eqn:Hb; cycle 1.
  { left. unfold control_device. run_view. by rewrite Hu, Hm, Hb. }
  destruct v as [| | | | | |d];
    try (left; unfold control_device; run_view; by rewrite Hu, Hm, Hb).
  destruct (d !! "device") as [[| | | |name| |]|] eqn:Hd;
    try (left; by rewrite (control_device_not_allowed _ _ _ u d Hu Hm Hb)
                    by (by rewrite Hd)).
  destruct (decide (name ∈ ["fan"; "heater"])) as [Hin|Hnin].
  - right. by exists u, d, name.
  - left. rewrite (control_device_not_allowed _ _ _ u d Hu Hm Hb); [done|..];
      rewrite Hd; apply str_eq_false; intros [= ->]; apply Hnin;
      [by left|right; by left].
Qed.

(** [control_device] keeps the constraint, keeps every row, and keeps the
    device of every row. *)
Lemma control_device_preserves request now s :
  unique_device s →
  let s' := (control_device request now s).2 in
  unique_device s' ∧
  ∀ k r, device_control s !! k = Some r →
         ∃ r', device_control s' !! k = Some r' ∧ device r' = device r.
Proof.
  intros Huniq. simpl.
  destruct (control_device_cases request now s)
    as [->|(u & d & name & Hu & Hm & Hb & Hd & Hname)]; [by eauto|].
  rewrite (control_device_run _ _ _ _ _ _ Hu Hm Hb Hd Hname).
  destruct (objects_get_cases (device_is name) (device_control s))
    as [[Hf ->]|[(k & r & Hf & ->)|[_ ->]]]; simpl; [| |by eauto].
  - split.
    + eapply unique_device_insert; [exact Huniq|reflexivity|].
      simpl. intros k' r' Hk' Hr'.
      pose proof (proj1 (objects_filter_empty _ _) Hf k' r' Hk') as Hno.
      apply bool_decide_eq_false in Hno. done.
    + intros k r Hk. exists r. split; [|done].
      rewrite lookup_insert_ne; [done|].
      intros <-. by rewrite next_id_fresh in Hk.
  - destruct (objects_filter_singleton_lookup _ _ _ _ Hf) as [Hk Hr].
    split.
    + eapply unique_device_insert; [exact Huniq|reflexivity|].
      simpl. intros k' r' Hk' Hr'.
      by eapply Huniq.
    + intros k' r' Hk'. destruct (decide (k' = k)) as [->|Hne].
      * rewrite lookup_insert_eq. eexists. split; [done|]. simpl. congruence.
      * rewrite lookup_insert_ne by done. eauto.
Qed.

Lemma run_requests_control_device_unique calls s :
  unique_device s → unique_device (run_requests control_device calls s).
Proof.
  revert s. induction calls as [|[request now] calls IH]; intros s Huniq; [done|].
  simpl. apply IH. by apply control_device_preserves.
Qed.

(** C2.  From a database with at most one row per device, every sequence of
    [control_device] requests leads to a database with at most one row per
    device.  A good request for an allowed device answers with the new state,
    leaves exactly one row for the device, holding that state, which
    [api_get_device_status] then reports; and whatever request comes second,
    the device still has exactly one row. *)
Theorem control_device_one_row_per_device s :
  unique_device s →
  (∀ calls, unique_device (run_requests control_device calls s)) ∧
  (∀ request now u d name a,
     user request = Some u →
     method request = POST →
     body request = Ok (VDict d) →
     d !! "device" = Some (VStr name) →
     name ∈ ["fan"; "heater"] →
     d !! "action" = Some (VStr a) →
     let on := bool_decide (a = "on") in
     let s1 := (control_device request now s).2 in
     (control_device request now s).1 =
       Ok (JsonResponse
             {[ "success" := RBool true;
                "message" := RFormat [FCapitalize name; FLit " turned "; FUpper a];
                "device" := REcho (VStr name);
                "status" := RBool on ]}
             HTTP_200_OK) ∧
     (∃ k, rows_of name s1 =
             {[ k := {| device := name; is_on := on; last_updated := now |} ]}) ∧
     (∀ request' now',
        method request' = GET →
        query_get (query_params request') "api_key" "" = VALID_API_KEY →
        ∃ content,
          api_get_device_status request' now' s1 =
            (Ok (Response content HTTP_200_OK), s1) ∧
          content !! name =
            Some (RDict {[ "is_on" := RBool on;
                           "last_updated" := RDatetime now ]})) ∧
     (∀ request2 now2,
        size (rows_of name (control_device request2 now2 s1).2) = 1%nat)).
Proof.
  intros Huniq. split; [intros calls; by apply run_requests_control_device_unique|].
  intros request now u d name a Hu Hm Hb Hd Hname Ha. simpl.
  destruct (control_device_preserves request now s Huniq) as [Huniq1 _].
  pose proof (control_device_run request now s u d name Hu Hm Hb Hd Hname) as Hrun.
  simpl in Hrun. rewrite Ha in Hrun. simpl in Hrun.
  assert ((control_device request now s).1 =
            Ok (device_switched (VStr name) (VStr a) (bool_decide (a = "on"))) ∧
          ∃ k, rows_of name (control_device request now s).2 =
                 {[ k := {| device := name; is_on := bool_decide (a = "on");
                            last_updated := now |} ]}) as [Hanswer [k Hrows]].
  { rewrite Hrun.
    destruct (objects_get_cases (device_is name) (device_control s))
      as [[Hf ->]|[(k & r & Hf & ->)|[Hmany _]]]; simpl.
    - split; [done|]. eexists. apply objects_filter_insert_first; [done|].
      by apply bool_decide_eq_true.
    - destruct (objects_filter_singleton_lookup _ _ _ _ Hf) as [_ Hr].
      apply bool_decide_eq_true in Hr. rewrite Hr.
      split; [done|]. exists k. eapply objects_filter_insert_over; [done|].
      by apply bool_decide_eq_true.
    - assert (rows_of name s ≠ ∅) as Hne
        by (intros Hf; rewrite Hf, map_size_empty in Hmany; lia).
      apply map_choose in Hne as (k & r & [Hk Hr]%lookup_objects_filter).
      apply bool_decide_eq_true in Hr.
      rewrite <-Hr, (unique_device_rows _ _ _ Huniq Hk), map_size_singleton in Hmany.
      lia. }
  destruct (objects_filter_singleton_lookup _ _ _ _ Hrows) as [Hk _].
  split; [done|]. split; [by exists k|]. split.
  - intros request' now' Hm' Hkey'. eexists.
    split; [by apply api_get_device_status_run|].
    revert Hname. intros [->|[->|[]%elem_of_nil]%elem_of_cons]%elem_of_cons.
    + by rewrite lookup_insert_eq, Hrows, objects_first_singleton.
    + rewrite lookup_insert_ne by done.
      by rewrite lookup_singleton_eq, Hrows, objects_first_singleton.
  - intros request2 now2.
    destruct (control_device_preserves request2 now2 _ Huniq1) as [Huniq2 Hkeep].
    destruct (Hkeep _ _ Hk) as (r' & Hk2 & Hr'). simpl in Hr'.
    by rewrite <-Hr', (unique_device_rows _ _ _ Huniq2 Hk2), map_size_singleton.
Qed.

(** Switching the fan on in the empty database, then reading, then switching
    it on again. *)
Lemma control_device_one_row_per_device_witness :
  let s1 := (control_device (device_request 7 "fan" "on") 100 empty_store).2 in
  unique_device (run_requests control_device
                   [(device_request 7 "fan" "on", 100);
                    (device_request 7 "fan" "on", 200)] empty_store) ∧
  (∃ k, rows_of "fan" s1 =
          {[ k := {| device := "fan"; is_on := true; last_updated := 100 |} ]}) ∧
  size (rows_of "fan" (control_device (device_request 7 "fan" "on") 200 s1).2) = 1%nat.
Proof.
  assert (unique_device empty_store) as Huniq.
  { intros k1 k2 r1 r2 Hk1. simpl in Hk1. by rewrite lookup_empty in Hk1. }
  destruct (control_device_one_row_per_device empty_store Huniq) as [Hseq Hone].
  assert ("fan" ∈ ["fan"; "heater"]) as Hin by (by left).
  destruct (Hone (device_request 7 "fan" "on") 100 7
              {[ "device" := VStr "fan"; "action" := VStr "on" ]} "fan" "on"
              eq_refl eq_refl eq_refl eq_refl Hin eq_refl)
    as (_ & Hrow & _ & Hagain).
  cbv zeta. split; [apply Hseq|]. split; [exact Hrow|apply Hagain].
Defined.

(** ** Sensor readings and the API key *)

Section sensor.
Context `{FloatSyntax} `{Database}.

(** The decisions of [api_sensor_data] on a POST whose data is a
    dictionary, in the order the view takes them. *)
Lemma api_sensor_data_run request now s d :
  method request = POST →
  data request = Ok (VDict d) →
  api_sensor_data request now s =
    let temp := default VNone (d !! "temperature") in
    let hum := default VNone (d !! "humidity") in
    if negb (str_eq (default (VStr "") (d !! "api_key")) VALID_API_KEY) then
      (Ok invalid_api_key, s)
    else if is_none temp || is_none hum then
      (Ok missing_fields, s)
    else
      match py_float temp with
      | Raise e => (Ok (api_error e), s)
      | Ok t =>
          match py_float hum with
          | Raise e => (Ok (api_error e), s)
          | Ok h =>
              if db_accepts t && db_accepts h then
                let k := next_id (sensor_data_seq s) (sensor_data s) in
                (Ok (sensor_recorded k now),
                 insert_sensor_data k
                   {| temperature := t; humidity := h; timestamp := now |} s)
              else (Ok (api_error DatabaseError), s)
          end
      end.
Proof.
  intros Hm Hd. unfold api_sensor_data. run_view. rewrite Hm, Hd. simpl.
  destruct (negb _); [done|].
  destruct (is_none _ || is_none _); [done|].
  destruct (py_float (default VNone (d !! "temperature"))) as [t|]; [|done].
  destruct (py_float (default VNone (d !! "humidity"))) as [h|]; [|done].
  unfold SensorData_create. simpl. by destruct (db_accepts t && db_accepts h).
Qed.

(** A POST whose data could not be parsed, or is not a dictionary, is
    answered 400 before the key is looked at; nothing is written. *)
Lemma api_sensor_data_no_dict request now s :
  method request = POST →
  (∀ d, data request ≠ Ok (VDict d)) →
  ∃ e, api_sensor_data request now s = (Ok (api_error e), s).
Proof.
  intros Hm Hd. unfold api_sensor_data. run_view. rewrite Hm. simpl.
  destruct (data request) as [v|e]; [|by exists e].
  destruct v; simpl; try by exists AttributeError.
  by destruct (Hd d).
Qed.

(** C3, amended.  On the sensor push a request whose data is a dictionary
    and whose ['api_key'] entry is not the configured key (the empty string
    stands for a missing entry), and on each of the three reads a GET whose
    ['api_key'] query parameter is not the configured key, is answered 401
    with the error ['Invalid API key'], whatever else the body or the query
    string holds, and the database is as before. *)
Theorem invalid_api_key_rejected request now s :
  (∀ d, method request = POST →
        data request = Ok (VDict d) →
        default (VStr "") (d !! "api_key") ≠ VStr VALID_API_KEY →
        api_sensor_data request now s = (Ok invalid_api_key, s)) ∧
  (method request = GET →
   query_get (query_params request) "api_key" "" ≠ VALID_API_KEY →
   api_get_setpoint request now s = (Ok invalid_api_key, s) ∧
   api_get_device_status request now s = (Ok invalid_api_key, s) ∧
   api_latest_sensor_data request now s = (Ok invalid_api_key, s)).
Proof.
  split.
  - intros d Hm Hd Hkey. rewrite (api_sensor_data_run _ _ _ _ Hm Hd). simpl.
    assert (str_eq (default (VStr "") (d !! "api_key")) VALID_API_KEY = false)
      as ->; [|done].
    destruct (default (VStr "") (d !! "api_key")); simpl; try done.
    apply bool_decide_eq_false. congruence.
  - intros Hm Hkey.
    unfold api_get_setpoint, api_get_device_status, api_latest_sensor_data.
    run_view. rewrite Hm. simpl.
    by rewrite (bool_decide_eq_false_2 _ Hkey).
Qed.
End sensor.

(** C3, as stated, does not hold of the sensor push: a body that parses to
    a list holds no ['api_key'], so the key of the request is not the
    configured one, and the request is answered 400 with the text of
    [AttributeError], not 401. *)
Lemma invalid_api_key_400_without_dictionary :
  ¬ (∀ (H : FloatSyntax) (D : Database) request now s,
       method request = POST →
       (∀ d, data request = Ok (VDict d) →
             d !! "api_key" ≠ Some (VStr VALID_API_KEY)) →
       api_sensor_data request now s = (Ok invalid_api_key, s)).
Proof.
  intros Hclaim.
  specialize (Hclaim zero_only_syntax mysql
                {| method := POST; user := None;
                   body := Ok (VList [VStr "wrong"]);
                   data := Ok (VList [VStr "wrong"]); query_params := [] |}
                100 empty_store eq_refl).
  assert (@api_sensor_data zero_only_syntax mysql
            {| method := POST; user := None;
               body := Ok (VList [VStr "wrong"]);
               data := Ok (VList [VStr "wrong"]); query_params := [] |}
            100 empty_store = (Ok (api_error AttributeError), empty_store))
    as Hrun by reflexivity.
  rewrite Hrun in Hclaim.
  assert (Ok (api_error AttributeError) = Ok invalid_api_key) as Heq.
  { apply (f_equal fst) in Hclaim; [exact Hclaim|]. intros d Hd. discriminate Hd. }
  discriminate Heq.
Qed.

Lemma invalid_api_key_rejected_witness :
  @api_sensor_data zero_only_syntax mysql
    (device_post {[ "temperature" := VFloat 25.5%float;
                    "humidity" := VFloat 60.0%float;
                    "api_key" := VStr "wrong" ]}) 100 empty_store =
    (Ok invalid_api_key, empty_store) ∧
  api_get_setpoint (device_get "wrong") 100 two_active_store =
    (Ok invalid_api_key, two_active_store) ∧
  api_get_device_status (device_get "wrong") 100 fan_only_store =
    (Ok invalid_api_key, fan_only_store) ∧
  api_latest_sensor_data (device_get "wrong") 100 empty_store =
    (Ok invalid_api_key, empty_store).
Proof.
  assert ("wrong" ≠ VALID_API_KEY) as Hwrong by discriminate.
  split; [|split; [|split]].
  - destruct (@invalid_api_key_rejected zero_only_syntax mysql
                (device_post {[ "temperature" := VFloat 25.5%float;
                                "humidity" := VFloat 60.0%float;
                                "api_key" := VStr "wrong" ]}) 100 empty_store)
      as [Hpost _].
    apply (Hpost {[ "temperature" := VFloat 25.5%float;
                    "humidity" := VFloat 60.0%float;
                    "api_key" := VStr "wrong" ]});
      [reflexivity|reflexivity|discriminate].
  - destruct (@invalid_api_key_rejected zero_only_syntax mysql (device_get "wrong")
                100 two_active_store) as [_ Hget].
    apply Hget; [reflexivity|exact Hwrong].
  - destruct (@invalid_api_key_rejected zero_only_syntax mysql (device_get "wrong")
                100 fan_only_store) as [_ Hget].
    apply Hget; [reflexivity|exact Hwrong].
  - destruct (@invalid_api_key_rejected zero_only_syntax mysql (device_get "wrong")
                100 empty_store) as [_ Hget].
    apply Hget; [reflexivity|exact Hwrong].
Defined.

(** Values [float] rejects whatever the string parser: [None], lists and
    dictionaries, and an [int] out of the binary64 range. *)
Lemma py_float_rejects `{FloatSyntax} :
  py_float VNone = Raise TypeError ∧
  (∀ l, py_float (VList l) = Raise TypeError) ∧
  (∀ d, py_float (VDict d) = Raise TypeError) ∧
  py_float (VInt (2 ^ 1024)) = Raise OverflowError.
Proof. by repeat split. Qed.

Section sensor_claims.
Context `{FloatSyntax} `{Database}.

(** C6.  With the valid key, a posted dictionary in which ['temperature']
    or ['humidity'] is missing (or [None]) is answered 400 with
    ['Missing temperature or humidity']; one in which both are present but
    [float] raises on the temperature, or on the humidity, is answered 400
    with the text of that exception; in each case the database is as
    before, so no reading is stored. *)
Theorem api_sensor_data_rejects_bad_fields request now s d :
  method request = POST →
  data request = Ok (VDict d) →
  default (VStr "") (d !! "api_key") = VStr VALID_API_KEY →
  let temp := default VNone (d !! "temperature") in
  let hum := default VNone (d !! "humidity") in
  (temp = VNone ∨ hum = VNone →
     api_sensor_data request now s = (Ok missing_fields, s)) ∧
  (∀ e, temp ≠ VNone → hum ≠ VNone → py_float temp = Raise e →
     api_sensor_data request now s = (Ok (api_error e), s)) ∧
  (∀ t e, temp ≠ VNone → hum ≠ VNone → py_float temp = Ok t →
     py_float hum = Raise e →
     api_sensor_data request now s = (Ok (api_error e), s)).
Proof.
  intros Hm Hd Hkey. simpl.
  rewrite (api_sensor_data_run _ _ _ _ Hm Hd). simpl. rewrite Hkey. simpl.
  assert (∀ v, v ≠ VNone → is_none v = false) as Hsome by (by intros []).
  repeat split.
  - by intros [->| ->]; rewrite ?orb_true_r.
  - intros e Ht Hh Hfloat. by rewrite (Hsome _ Ht), (Hsome _ Hh), Hfloat.
  - intros t e Ht Hh Hfloat Hfloat'.
    by rewrite (Hsome _ Ht), (Hsome _ Hh), Hfloat, Hfloat'.
Qed.

(** C4, amended.  With the valid key and a temperature and a humidity that
    [float] accepts: when the database takes both values,
    [api_sensor_data] stores exactly one new reading, under the next key of
    the sequence, which is not in use, with the clock's reading as
    timestamp, every other row and table as before, and answers 201 with
    that key and timestamp, and [api_latest_sensor_data] then answers with
    the new reading if the clock has moved past the timestamps stored
    before; when the database refuses one of the values, the answer is 400
    with the text of its exception and nothing is stored. *)
Theorem api_sensor_data_records request now s d vt vh t h :
  method request = POST →
  data request = Ok (VDict d) →
  default (VStr "") (d !! "api_key") = VStr VALID_API_KEY →
  d !! "temperature" = Some vt →
  d !! "humidity" = Some vh →
  py_float vt = Ok t →
  py_float vh = Ok h →
  (db_accepts t = true → db_accepts h = true →
   let k := next_id (sensor_data_seq s) (sensor_data s) in
   let row := {| temperature := t; humidity := h; timestamp := now |} in
   let s' := insert_sensor_data k row s in
   sensor_data s !! k = None ∧
   sensor_data_seq s < k ∧
   size (sensor_data s') = S (size (sensor_data s)) ∧
   api_sensor_data request now s = (Ok (sensor_recorded k now), s') ∧
   (∀ request' now',
      method request' = GET →
      query_get (query_params request') "api_key" "" = VALID_API_KEY →
      (∀ k' r', sensor_data s !! k' = Some r' → timestamp r' < now) →
      api_latest_sensor_data request' now' s' = (Ok (latest_reading row), s'))) ∧
  (db_accepts t = false ∨ db_accepts h = false →
   api_sensor_data request now s = (Ok (api_error DatabaseError), s)).
Proof.
  intros Hm Hd Hkey Hvt Hvh Ht Hh.
  assert (∀ v x, py_float v = Ok x → is_none v = false) as Hsome
    by (by intros []).
  pose proof (api_sensor_data_run request now s d Hm Hd) as Hrun.
  simpl in Hrun. rewrite Hkey, Hvt, Hvh in Hrun. simpl in Hrun.
  rewrite Ht, Hh, (Hsome _ _ Ht), (Hsome _ _ Hh) in Hrun. simpl in Hrun.
  split.
  - intros Hacct Hacch. simpl. rewrite Hacct, Hacch in Hrun.
    pose proof (next_id_fresh (sensor_data_seq s) (sensor_data s)) as Hfresh.
    split; [done|]. split; [apply next_id_above|].
    split; [by apply map_size_insert_None|]. split; [done|].
    intros request' now' Hm' Hkey' Hclock.
    unfold api_latest_sensor_data. run_view. rewrite Hm', Hkey'. simpl.
    unfold SensorData_ordering.
    erewrite objects_first_desc_latest; [done|apply lookup_insert_eq|].
    intros k' r' Hk' Hne. rewrite lookup_insert_ne in Hk' by done.
    simpl. by eapply Hclock.
  - intros Hrefused.
    assert (db_accepts t && db_accepts h = false) as Hno
      by (destruct Hrefused as [-> | ->]; [done|apply andb_false_r]).
    by rewrite Hno in Hrun.
Qed.
End sensor_claims.

(** C4, as stated, does not hold, for two reasons.  A value that [float]
    accepts need not be one the database stores: the string ["nan"] is read
    as the value that is not a number, which MySQL refuses, so the view
    answers 400 and stores nothing.  And a reading that is stored need not
    be the latest: when a stored reading carries a later timestamp than the
    clock now shows, [api_latest_sensor_data] still answers with that one. *)
Lemma api_sensor_data_not_always_recorded :
  ¬ (∀ (H : FloatSyntax) (D : Database) request now s d vt vh t h,
       method request = POST →
       data request = Ok (VDict d) →
       d !! "api_key" = Some (VStr VALID_API_KEY) →
       d !! "temperature" = Some vt →
       d !! "humidity" = Some vh →
       py_float vt = Ok t →
       py_float vh = Ok h →
       ∃ k s',
         api_sensor_data request now s = (Ok (sensor_recorded k now), s') ∧
         size (sensor_data s') = S (size (sensor_data s))) ∧
  ¬ (∀ (H : FloatSyntax) (D : Database) request now s d vt vh t h request' now',
       method request = POST →
       data request = Ok (VDict d) →
       d !! "api_key" = Some (VStr VALID_API_KEY) →
       d !! "temperature" = Some vt →
       d !! "humidity" = Some vh →
       py_float vt = Ok t →
       py_float vh = Ok h →
       db_accepts t = true →
       db_accepts h = true →
       method request' = GET →
       query_get (query_params request') "api_key" "" = VALID_API_KEY →
       api_latest_sensor_data request' now'
         (api_sensor_data request now s).2 =
         (Ok (latest_reading
                {| temperature := t; humidity := h; timestamp := now |}),
          (api_sensor_data request now s).2)).
Proof.
  split.
  - intros Hclaim.
    destruct (Hclaim nan_syntax mysql
                (device_post {[ "temperature" := VStr "nan";
                                "humidity" := VFloat 60.0%float;
                                "api_key" := VStr VALID_API_KEY ]})
                100 one_reading_store
                {[ "temperature" := VStr "nan";
                   "humidity" := VFloat 60.0%float;
                   "api_key" := VStr VALID_API_KEY ]}
                (VStr "nan") (VFloat 60.0%float) nan 60.0%float)
      as (k & s' & Hrun & _); [reflexivity..|].
    assert (@api_sensor_data nan_syntax mysql
              (device_post {[ "temperature" := VStr "nan";
                              "humidity" := VFloat 60.0%float;
                              "api_key" := VStr VALID_API_KEY ]})
              100 one_reading_store =
            (Ok (api_error DatabaseError), one_reading_store)) as Hrefused
      by reflexivity.
    rewrite Hrefused in Hrun. discriminate Hrun.
  - intros Hclaim.
    specialize (Hclaim zero_only_syntax mysql
                  (device_post {[ "temperature" := VFloat 25.5%float;
                                  "humidity" := VFloat 60.0%float;
                                  "api_key" := VStr VALID_API_KEY ]})
                  30 one_reading_store
                  {[ "temperature" := VFloat 25.5%float;
                     "humidity" := VFloat 60.0%float;
                     "api_key" := VStr VALID_API_KEY ]}
                  (VFloat 25.5%float) (VFloat 60.0%float) 25.5%float 60.0%float
                  (device_get VALID_API_KEY) 31).
    apply (f_equal fst) in Hclaim; [|reflexivity..].
    vm_compute in Hclaim. discriminate Hclaim.
Qed.

Lemma api_sensor_data_rejects_bad_fields_witness :
  @api_sensor_data zero_only_syntax mysql
    (device_post {[ "humidity" := VFloat 60.0%float;
                    "api_key" := VStr VALID_API_KEY ]}) 100 one_reading_store =
    (Ok missing_fields, one_reading_store) ∧
  @api_sensor_data zero_only_syntax mysql
    (device_post {[ "temperature" := VFloat 25.5%float;
                    "humidity" := VList [];
                    "api_key" := VStr VALID_API_KEY ]}) 100 one_reading_store =
    (Ok (api_error TypeError), one_reading_store).
Proof.
  split.
  - destruct (@api_sensor_data_rejects_bad_fields zero_only_syntax mysql
                (device_post {[ "humidity" := VFloat 60.0%float;
                                "api_key" := VStr VALID_API_KEY ]})
                100 one_reading_store
                {[ "humidity" := VFloat 60.0%float;
                   "api_key" := VStr VALID_API_KEY ]}) as [Hmissing _];
      [reflexivity..|].
    apply Hmissing. left. reflexivity.
  - destruct (@api_sensor_data_rejects_bad_fields zero_only_syntax mysql
                (device_post {[ "temperature" := VFloat 25.5%float;
                                "humidity" := VList [];
                                "api_key" := VStr VALID_API_KEY ]})
                100 one_reading_store
                {[ "temperature" := VFloat 25.5%float;
                   "humidity" := VList [];
                   "api_key" := VStr VALID_API_KEY ]}) as (_ & _ & Hhum);
      [reflexivity..|].
    apply (Hhum 25.5%float TypeError); [discriminate|discriminate|reflexivity..].
Defined.

(** The scenario of the specification: 25.5 and 60.0 are pushed at time 100
    into a store whose one reading is older; the reading is stored under key
    2 and is the latest. *)
Lemma api_sensor_data_records_witness :
  let row := {| temperature := 25.5%float; humidity := 60.0%float;
                timestamp := 100 |} in
  let s' := insert_sensor_data 2 row one_reading_store in
  @api_sensor_data zero_only_syntax mysql
    (device_post {[ "temperature" := VFloat 25.5%float;
                    "humidity" := VFloat 60.0%float;
                    "api_key" := VStr VALID_API_KEY ]}) 100 one_reading_store =
    (Ok (sensor_recorded 2 100), s') ∧
  api_latest_sensor_data (device_get VALID_API_KEY) 101 s' =
    (Ok (latest_reading row), s').
Proof.
  destruct (@api_sensor_data_records zero_only_syntax mysql
              (device_post {[ "temperature" := VFloat 25.5%float;
                              "humidity" := VFloat 60.0%float;
                              "api_key" := VStr VALID_API_KEY ]})
              100 one_reading_store
              {[ "temperature" := VFloat 25.5%float;
                 "humidity" := VFloat 60.0%float;
                 "api_key" := VStr VALID_API_KEY ]}
              (VFloat 25.5%float) (VFloat 60.0%float) 25.5%float 60.0%float)
    as [Hstored _]; [reflexivity..|].
  destruct (Hstored eq_refl eq_refl) as (_ & _ & _ & Hrun & Hlatest).
  cbv zeta. split; [exact Hrun|].
  apply (Hlatest (device_get VALID_API_KEY) 101); [reflexivity|reflexivity|].
  intros k' r' Hk'. unfold one_reading_store in Hk'. simpl in Hk'.
  apply lookup_singleton_Some in Hk' as [_ <-]. simpl. lia.
Defined.

(** * Further properties of the views *)

(** ** What the writing views do to the store *)

Section effects.
Context `{FloatSyntax} `{Database} `{Clock}.

(** [update_setpoint] either leaves the store alone or writes one active
    setpoint row: a new one when no row was active, and otherwise over the
    only active row, whose [created_at] it keeps. *)
Lemma update_setpoint_store request now s :
  let s' := (update_setpoint request now s).2 in
  s' = s ∨
  ∃ k r,
    temperature_setpoint s' = <[k := r]> (temperature_setpoint s) ∧
    sensor_data s' = sensor_data s ∧
    device_control s' = device_control s ∧
    is_active r = true ∧
    ((active s = ∅ ∧ temperature_setpoint s !! k = None) ∨
     (∃ r0, active s = {[ k := r0 ]} ∧ created_at r = created_at r0)).
Proof.
  simpl.
  destruct (update_setpoint_cases request now s)
    as [->|(u & d & t & Hu & Hm & Hb & Ht & Hacc)]; [by left|].
  rewrite (update_setpoint_run _ _ _ _ _ _ Hu Hm Hb Ht Hacc).
  destruct (objects_get_cases is_active (temperature_setpoint s))
    as [[Hf ->]|[(k0 & r0 & Hf & ->)|[_ ->]]]; simpl; [| |by left].
  - right. eexists _, _. split_and!; try done. left.
    split; [done|apply next_id_fresh].
  - destruct (objects_filter_singleton_lookup _ _ _ _ Hf) as [_ Hr0].
    right. eexists _, _. split_and!; try done. right. by exists r0.
Qed.

(** [control_device] either leaves the store alone or writes one row for
    the device the body names, which is the fan or the heater: a new row, or
    over a row of that device. *)
Lemma control_device_store request now s :
  let s' := (control_device request now s).2 in
  s' = s ∨
  ∃ k r d,
    device_control s' = <[k := r]> (device_control s) ∧
    sensor_data s' = sensor_data s ∧
    temperature_setpoint s' = temperature_setpoint s ∧
    body request = Ok (VDict d) ∧ d !! "device" = Some (VStr (device r)) ∧
    device r ∈ ["fan"; "heater"] ∧
    (device_control s !! k = None ∨
     ∃ r0, device_control s !! k = Some r0 ∧ device r0 = device r).
Proof.
  simpl.
  destruct (control_device_cases request now s)
    as [->|(u & d & name & Hu & Hm & Hb & Hd & Hname)]; [by left|].
  rewrite (control_device_run _ _ _ _ _ _ Hu Hm Hb Hd Hname).
  destruct (objects_get_cases (device_is name) (device_control s))
    as [[Hf ->]|[(k0 & r0 & Hf & ->)|[_ ->]]]; simpl; [| |by left].
  - right. eexists _, _, d. split; [done|]. simpl. split_and!; try done.
    left. apply next_id_fresh.
  - destruct (objects_filter_singleton_lookup _ _ _ _ Hf) as [Hk0 Hr0].
    apply bool_decide_eq_true in Hr0.
    right. eexists _, _, d. split; [done|]. simpl. rewrite Hr0.
    split_and!; try done. right. by exists r0.
Qed.

(** [api_sensor_data] either leaves the store alone or adds one reading
    under a new key. *)
Lemma api_sensor_data_store request now s :
  let s' := (api_sensor_data request now s).2 in
  s' = s ∨
  ∃ k r,
    sensor_data s !! k = None ∧
    sensor_data s' = <[k := r]> (sensor_data s) ∧
    device_control s' = device_control s ∧
    temperature_setpoint s' = temperature_setpoint s.
Proof.
  simpl.
  destruct (decide (method request = POST)) as [Hm|Hm]; cycle 1.
  { left. unfold api_sensor_data. run_view. by repeat case_bool_decide. }
  destruct (data request) as [v|e] eqn:Hd; cycle 1.
  { left. unfold api_sensor_data. run_view. by rewrite Hm, Hd. }
  destruct v as [| | | | | |d];
    try (left; unfold api_sensor_data; run_view; by rewrite Hm, Hd).
  rewrite (api_sensor_data_run _ _ _ _ Hm Hd). simpl.
  destruct (negb _); [by left|].
  destruct (is_none _ || is_none _); [by left|].
  destruct (py_float (default VNone (d !! "temperature"))) as [t|]; [|by left].
  destruct (py_float (default VNone (d !! "humidity"))) as [h|]; [|by left].
  destruct (db_accepts t && db_accepts h); [|by left].
  right. eexists _, _. split; [apply next_id_fresh|done].
Qed.
End effects.

(** ** Gates and frames *)

Section gates.
Context `{FloatSyntax} `{Database} `{Clock}.

(** The session gate and the method gate of the two admin actions: an
    anonymous request is sent to the login page, a logged-in request that is
    not a POST is answered 405, and in both cases the body is never read and
    the database is as before. *)
Theorem admin_actions_gate request now s :
  (user request = None →
     update_setpoint request now s = (Ok (HttpResponseRedirect "login"), s) ∧
     control_device request now s = (Ok (HttpResponseRedirect "login"), s)) ∧
  (∀ u, user request = Some u → method request ≠ POST →
     update_setpoint request now s = (Ok HttpResponseNotAllowed, s) ∧
     control_device request now s = (Ok HttpResponseNotAllowed, s)).
Proof.
  split.
  - intros Hu. unfold update_setpoint, control_device. run_view. by rewrite Hu.
  - intros u Hu Hm. unfold update_setpoint, control_device. run_view. rewrite Hu.
    rewrite bool_decide_eq_false_2; [done|].
    by intros ?%list_elem_of_singleton.
Qed.

(** The three read endpoints of the device never write, whatever the
    request: wrong method, wrong key or good key. *)
Theorem device_reads_never_write request now s :
  (api_get_setpoint request now s).2 = s ∧
  (api_get_device_status request now s).2 = s ∧
  (api_latest_sensor_data request now s).2 = s.
Proof.
  unfold api_get_setpoint, api_get_device_status, api_latest_sensor_data.
  run_view. repeat split.
  - repeat case_bool_decide; simpl; try done.
    by destruct (objects_first _ _).
  - by repeat case_bool_decide.
  - repeat case_bool_decide; simpl; try done.
    by destruct (objects_first _ _).
Qed.
End gates.

Lemma admin_actions_gate_witness :
  @update_setpoint zero_only_syntax mysql sample_clock
    {| method := POST; user := None;
       body := Ok (VDict {[ "setpoint" := VFloat 30.0%float ]});
       data := Ok (VDict ∅); query_params := [] |} 100 two_active_store =
    (Ok (HttpResponseRedirect "login"), two_active_store) ∧
  control_device
    {| method := GET; user := Some 7;
       body := Ok (VDict {[ "device" := VStr "fan"; "action" := VStr "on" ]});
       data := Ok (VDict ∅); query_params := [] |} 100 empty_store =
    (Ok HttpResponseNotAllowed, empty_store).
Proof.
  split.
  - destruct (@admin_actions_gate zero_only_syntax mysql sample_clock
                {| method := POST; user := None;
                   body := Ok (VDict {[ "setpoint" := VFloat 30.0%float ]});
                   data := Ok (VDict ∅); query_params := [] |} 100
                two_active_store) as [Hanon _].
    destruct (Hanon eq_refl) as [Hset _]. exact Hset.
  - destruct (@admin_actions_gate zero_only_syntax mysql sample_clock
                {| method := GET; user := Some 7;
                   body := Ok (VDict {[ "device" := VStr "fan";
                                        "action" := VStr "on" ]});
                   data := Ok (VDict ∅); query_params := [] |} 100
                empty_store) as [_ Hmethod].
    destruct (Hmethod 7 eq_refl) as [_ Hdev]; [discriminate|exact Hdev].
Defined.

(** ** The latest reading *)

(** With a valid key [api_latest_sensor_data] answers 404 with
    ['No sensor data available'] exactly when no reading is stored, and
    otherwise answers with a stored reading that no stored reading is later
    than. *)
Theorem api_latest_sensor_data_newest request now s :
  method request = GET →
  query_get (query_params request) "api_key" "" = VALID_API_KEY →
  (sensor_data s = ∅ ∧
   api_latest_sensor_data request now s =
     (Ok (Response {[ "error" := RStr "No sensor data available" ]}
            HTTP_404_NOT_FOUND), s)) ∨
  (∃ k r,
     sensor_data s !! k = Some r ∧
     (∀ k' r', sensor_data s !! k' = Some r' → timestamp r' ≤ timestamp r) ∧
     api_latest_sensor_data request now s = (Ok (latest_reading r), s)).
Proof.
  intros Hm Hkey. unfold api_latest_sensor_data. run_view.
  rewrite Hm, Hkey. simpl.
  destruct (objects_first SensorData_ordering (sensor_data s))
    as [[k r]|] eqn:Hfirst.
  - right. apply objects_first_desc in Hfirst as [Hk Hmax]. by exists k, r.
  - left. by apply objects_first_None in Hfirst.
Qed.

Lemma api_latest_sensor_data_newest_witness :
  api_latest_sensor_data (device_get VALID_API_KEY) 100 empty_store =
    (Ok (Response {[ "error" := RStr "No sensor data available" ]}
           HTTP_404_NOT_FOUND), empty_store).
Proof.
  destruct (api_latest_sensor_data_newest (device_get VALID_API_KEY) 100
              empty_store eq_refl eq_refl)
    as [[_ Hempty]|(k & r & Hk & _)].
  - exact Hempty.
  - simpl in Hk. rewrite lookup_empty in Hk. discriminate Hk.
Defined.

Lemma api_get_setpoint_latest_active_witness :
  ∃ k r,
    temperature_setpoint two_active_store !! k = Some r ∧ is_active r = true ∧
    (∀ k' r', temperature_setpoint two_active_store !! k' = Some r' →
              is_active r' = true → updated_at r' ≤ updated_at r) ∧
    api_get_setpoint (device_get VALID_API_KEY) 100 two_active_store =
      (Ok (setpoint_response (setpoint_temperature r) (RDatetime (updated_at r))),
       two_active_store).
Proof.
  apply (api_get_setpoint_latest_active (device_get VALID_API_KEY) 100
           two_active_store); [reflexivity|reflexivity|].
  intros Hempty.
  assert (active two_active_store !! 1 = None) as Hone by (by rewrite Hempty).
  vm_compute in Hone. discriminate Hone.
Defined.

(** ** More on the setpoint *)

Section setpoint_more.
Context `{FloatSyntax} `{Database} `{Clock}.

(** Whatever the request, [update_setpoint] leaves the readings and the
    device rows alone, removes no setpoint row, and changes neither the
    [created_at] nor the [is_active] of a setpoint row: it never deactivates
    or re-dates one. *)
Theorem update_setpoint_frame request now s :
  let s' := (update_setpoint request now s).2 in
  sensor_data s' = sensor_data s ∧
  device_control s' = device_control s ∧
  ∀ k r, temperature_setpoint s !! k = Some r →
         ∃ r', temperature_setpoint s' !! k = Some r' ∧
               created_at r' = created_at r ∧ is_active r' = is_active r.
Proof.
  simpl.
  destruct (update_setpoint_store request now s)
    as [->|(k0 & r0 & -> & -> & -> & Hr0 & Hrow)]; [repeat split; eauto|].
  repeat split; try done. intros k r Hk.
  destruct (decide (k = k0)) as [->|Hne]; [|rewrite lookup_insert_ne by done; eauto].
  rewrite lookup_insert_eq. exists r0. split; [done|].
  destruct Hrow as [[_ Hnew]|(r1 & Hf & Hcreated)]; [congruence|].
  destruct (objects_filter_singleton_lookup _ _ _ _ Hf) as [Hk1 Hr1].
  assert (r1 = r) as -> by congruence. split; congruence.
Qed.

(** A database with at most one active setpoint row keeps at most one,
    whatever sequence of requests [update_setpoint] serves. *)
Theorem update_setpoint_keeps_one_active calls s :
  (size (active s) ≤ 1)%nat →
  (size (active (run_requests update_setpoint calls s)) ≤ 1)%nat.
Proof.
  revert s. induction calls as [|[request now] calls IH]; intros s Hsize; [done|].
  simpl. apply IH.
  destruct (update_setpoint_store request now s)
    as [->|(k & r & -> & _ & _ & Hr & [[Hf _]|(r0 & Hf & _)])]; [done| |].
  - rewrite (objects_filter_insert_first _ _ _ _ Hf) by done.
    by rewrite map_size_singleton.
  - rewrite (objects_filter_insert_over _ _ _ _ _ Hf) by done.
    by rewrite map_size_singleton.
Qed.

(** Round trip: on a database with at most one active row, the temperature
    a good [update_setpoint] request sets, if it is one the database takes,
    is the one [api_get_setpoint] reports next, with the time of the update
    as [updated_at]. *)
Theorem update_then_get_setpoint request now s u d v t request' now' :
  (size (active s) ≤ 1)%nat →
  user request = Some u →
  method request = POST →
  body request = Ok (VDict d) →
  d !! "setpoint" = Some v →
  py_float v = Ok t →
  db_accepts t = true →
  method request' = GET →
  query_get (query_params request') "api_key" "" = VALID_API_KEY →
  let s' := (update_setpoint request now s).2 in
  api_get_setpoint request' now' s' = (Ok (setpoint_response t (RDatetime now)), s').
Proof.
  intros Hsize Hu Hm Hb Hv Ht Hacc Hm' Hkey'. simpl.
  assert (py_float (default (VFloat 25.0%float) (d !! "setpoint")) = Ok t)
    as Ht' by by rewrite Hv.
  assert (∃ k r, active (update_setpoint request now s).2 = {[ k := r ]} ∧
                 setpoint_temperature r = t ∧ updated_at r = now)
    as (k & r & Hf & <- & <-).
  { rewrite (update_setpoint_run _ _ _ _ _ _ Hu Hm Hb Ht' Hacc).
    destruct (objects_get_cases is_active (temperature_setpoint s))
      as [[Hf ->]|[(k0 & r0 & Hf & ->)|[Hmany _]]]; simpl; [| |lia].
    - eexists _, _. split; [by apply objects_filter_insert_first|done].
    - destruct (objects_filter_singleton_lookup _ _ _ _ Hf) as [_ Hr0].
      eexists _, _. split; [by eapply objects_filter_insert_over|done]. }
  unfold api_get_setpoint. run_view. rewrite Hm', Hkey'. simpl.
  by rewrite Hf, objects_first_singleton.
Qed.

(** The three ways a logged-in POST to [update_setpoint] fails, each
    answered 400 with the text of its exception and without a write: a body
    that is not JSON, a body that is JSON but not an object, and a
    ['setpoint'] entry that [float] rejects.  An entry that is present but
    [null] is such an entry: the default 25.0 stands in for a missing key
    only. *)
Theorem update_setpoint_failures request now s u :
  user request = Some u →
  method request = POST →
  (∀ e, body request = Raise e →
        update_setpoint request now s = (Ok (request_failed e), s)) ∧
  (∀ v, body request = Ok v → (∀ d, v ≠ VDict d) →
        update_setpoint request now s = (Ok (request_failed AttributeError), s)) ∧
  (∀ d v e, body request = Ok (VDict d) → d !! "setpoint" = Some v →
            py_float v = Raise e →
            update_setpoint request now s = (Ok (request_failed e), s)) ∧
  (∀ d, body request = Ok (VDict d) → d !! "setpoint" = Some VNone →
        update_setpoint request now s = (Ok (request_failed TypeError), s)).
Proof.
  intros Hu Hm.
  assert (∀ d v e, body request = Ok (VDict d) → d !! "setpoint" = Some v →
            py_float v = Raise e →
            update_setpoint request now s = (Ok (request_failed e), s)) as Hfloat.
  { intros d v e Hb Hd Hv. unfold update_setpoint. run_view.
    rewrite Hu, Hm, Hb. simpl. rewrite Hd. simpl. by rewrite Hv. }
  repeat split.
  - intros e Hb. unfold update_setpoint. run_view. by rewrite Hu, Hm, Hb.
  - intros v Hb Hv. unfold update_setpoint. run_view. rewrite Hu, Hm, Hb. simpl.
    destruct v; try done. by destruct (Hv d).
  - done.
  - intros d Hb Hd. by apply (Hfloat d VNone).
Qed.
End setpoint_more.

Lemma update_setpoint_keeps_one_active_witness :
  (size (active (run_requests (@update_setpoint zero_only_syntax mysql sample_clock)
                   [(setpoint_request 7%Z (VFloat 27.5%float), 100%Z);
                    (list_body_request, 150%Z);
                    (setpoint_request 8%Z (VInt 30%Z), 200%Z)]
                   inactive_store)) ≤ 1)%nat.
Proof.
  apply (@update_setpoint_keeps_one_active zero_only_syntax mysql sample_clock).
  vm_compute. lia.
Defined.

Lemma update_then_get_setpoint_witness :
  let s' := (@update_setpoint zero_only_syntax mysql sample_clock
               (setpoint_request 7 (VFloat 27.5%float)) 100 inactive_store).2 in
  api_get_setpoint (device_get VALID_API_KEY) 101 s' =
    (Ok (setpoint_response 27.5%float (RDatetime 100)), s').
Proof.
  assert (size (active inactive_store) ≤ 1)%nat as Hsize by (vm_compute; lia).
  exact (@update_then_get_setpoint zero_only_syntax mysql sample_clock
           (setpoint_request 7 (VFloat 27.5%float)) 100 inactive_store 7
           {[ "setpoint" := VFloat 27.5%float ]} (VFloat 27.5%float) 27.5%float
           (device_get VALID_API_KEY) 101
           Hsize eq_refl eq_refl eq_refl eq_refl eq_refl eq_refl eq_refl eq_refl).
Defined.

Lemma update_setpoint_failures_witness :
  @update_setpoint zero_only_syntax mysql sample_clock
    (setpoint_request 7 VNone) 100 inactive_store =
    (Ok (request_failed TypeError), inactive_store) ∧
  @update_setpoint zero_only_syntax mysql sample_clock
    list_body_request 100 inactive_store =
    (Ok (request_failed AttributeError), inactive_store).
Proof.
  split.
  - destruct (@update_setpoint_failures zero_only_syntax mysql sample_clock
                (setpoint_request 7 VNone) 100 inactive_store 7 eq_refl eq_refl)
      as (_ & _ & _ & Hnull).
    apply (Hnull {[ "setpoint" := VNone ]}); reflexivity.
  - destruct (@update_setpoint_failures zero_only_syntax mysql sample_clock
                list_body_request 100 inactive_store 7 eq_refl eq_refl)
      as (_ & Hshape & _).
    apply (Hshape (VList [])); [reflexivity|]. intros d. discriminate.
Defined.

(** ** More on device control *)

(** [control_device] saves before it builds its answer.  For an allowed
    device and an ['action'] that is missing or not a string, the row of the
    device is written, switched off, and then [action.upper()] raises: the
    answer is 400 with the text of [AttributeError] although the database has
    changed. *)
Theorem control_device_saves_before_failing request now s u d name :
  unique_device s →
  user request = Some u →
  method request = POST →
  body request = Ok (VDict d) →
  d !! "device" = Some (VStr name) →
  name ∈ ["fan"; "heater"] →
  (∀ a, default VNone (d !! "action") ≠ VStr a) →
  let s' := (control_device request now s).2 in
  (control_device request now s).1 = Ok (request_failed AttributeError) ∧
  ∃ k, rows_of name s' =
         {[ k := {| device := name; is_on := false; last_updated := now |} ]}.
Proof.
  intros Huniq Hu Hm Hb Hd Hname Haction. simpl.
  pose proof (control_device_run request now s u d name Hu Hm Hb Hd Hname) as Hrun.
  simpl in Hrun.
  assert (str_eq (default VNone (d !! "action")) "on" = false) as Hoff
    by apply str_eq_false, Haction.
  assert (device_switched (VStr name) (default VNone (d !! "action")) false =
          request_failed AttributeError) as Hfail.
  { unfold device_switched.
    destruct (default VNone (d !! "action")) as [| | | |a| |]; try done.
    by destruct (Haction a). }
  rewrite Hoff, Hfail in Hrun. rewrite Hrun.
  destruct (objects_get_cases (device_is name) (device_control s))
    as [[Hf ->]|[(k & r & Hf & ->)|[Hmany _]]]; simpl.
  - split; [done|]. eexists. apply objects_filter_insert_first; [done|].
    by apply bool_decide_eq_true.
  - destruct (objects_filter_singleton_lookup _ _ _ _ Hf) as [_ Hr].
    apply bool_decide_eq_true in Hr. rewrite Hr.
    split; [done|]. exists k. eapply objects_filter_insert_over; [done|].
    by apply bool_decide_eq_true.
  - assert (rows_of name s ≠ ∅) as Hne
      by (intros Hf; rewrite Hf, map_size_empty in Hmany; lia).
    apply map_choose in Hne as (k & r & [Hk Hr]%lookup_objects_filter).
    apply bool_decide_eq_true in Hr.
    rewrite <-Hr, (unique_device_rows _ _ _ Huniq Hk), map_size_singleton in Hmany.
    lia.
Qed.

(** Whatever the request, [control_device] leaves the readings and the
    setpoints alone, removes no device row, and leaves every row of a device
    other than the one the body names exactly as it was. *)
Theorem control_device_frame request now s :
  let s' := (control_device request now s).2 in
  sensor_data s' = sensor_data s ∧
  temperature_setpoint s' = temperature_setpoint s ∧
  (∀ k r, device_control s !! k = Some r →
          ∃ r', device_control s' !! k = Some r' ∧ device r' = device r) ∧
  (∀ k r, device_control s !! k = Some r →
          (∀ d, body request = Ok (VDict d) →
                d !! "device" ≠ Some (VStr (device r))) →
          device_control s' !! k = Some r).
Proof.
  simpl.
  destruct (control_device_store request now s)
    as [->|(k0 & r0 & d & -> & -> & -> & Hb & Hd & _ & Hrow)];
    [repeat split; eauto|].
  repeat split; try done.
  - intros k r Hk. destruct (decide (k = k0)) as [->|Hne];
      [|rewrite lookup_insert_ne by done; eauto].
    rewrite lookup_insert_eq. exists r0. split; [done|].
    destruct Hrow as [Hnew|(r1 & Hk1 & Hr1)]; congruence.
  - intros k r Hk Hother. destruct (decide (k = k0)) as [->|Hne];
      [|by rewrite lookup_insert_ne].
    destruct Hrow as [Hnew|(r1 & Hk1 & Hr1)]; [congruence|].
    assert (r1 = r) as -> by congruence.
    destruct (Hother d Hb). by rewrite Hd, Hr1.
Qed.

(** [control_device] only ever stores rows for ['fan'] and ['heater']: a
    table holding no other device holds none after any request. *)
Theorem control_device_allowed_devices request now s :
  (∀ k r, device_control s !! k = Some r → device r ∈ ["fan"; "heater"]) →
  ∀ k r, device_control (control_device request now s).2 !! k = Some r →
         device r ∈ ["fan"; "heater"].
Proof.
  intros Hallowed.
  destruct (control_device_store request now s)
    as [->|(k0 & r0 & d & -> & _ & _ & _ & _ & Hname & _)]; [done|].
  intros k r [[_ <-]|[_ Hk]]%lookup_insert_Some; [done|by eauto].
Qed.

Lemma control_device_saves_before_failing_witness :
  let request := {| method := POST; user := Some 7;
                    body := Ok (VDict {[ "device" := VStr "fan" ]});
                    data := Ok (VDict ∅); query_params := [] |} in
  (control_device request 100 fan_only_store).1 =
    Ok (request_failed AttributeError) ∧
  ∃ k, rows_of "fan" (control_device request 100 fan_only_store).2 =
         {[ k := {| device := "fan"; is_on := false; last_updated := 100 |} ]}.
Proof.
  assert (unique_device fan_only_store) as Huniq.
  { intros k1 k2 r1 r2 Hk1 Hk2 _. unfold fan_only_store in Hk1, Hk2.
    simpl in Hk1, Hk2.
    apply lookup_singleton_Some in Hk1 as [<- _].
    apply lookup_singleton_Some in Hk2 as [<- _]. reflexivity. }
  assert ("fan" ∈ ["fan"; "heater"]) as Hin by (by left).
  apply (control_device_saves_before_failing _ 100 fan_only_store 7
           {[ "device" := VStr "fan" ]} "fan" Huniq);
    [reflexivity|reflexivity|reflexivity|reflexivity|exact Hin|].
  intros a. discriminate.
Defined.

Lemma control_device_allowed_devices_witness :
  ∃ r,
    device_control (control_device (device_request 7 "heater" "on") 100
                      fan_only_store).2 !! 2 = Some r ∧
    device r ∈ ["fan"; "heater"].
Proof.
  exists {| device := "heater"; is_on := true; last_updated := 100 |}.
  split; [reflexivity|].
  apply (control_device_allowed_devices (device_request 7 "heater" "on") 100
           fan_only_store) with (k := 2); [|reflexivity].
  intros k r Hk. unfold fan_only_store in Hk. simpl in Hk.
  apply lookup_singleton_Some in Hk as [_ <-]. by left.
Defined.

(** ** More on the sensor push *)

Section sensor_more.
Context `{FloatSyntax} `{Database}.

(** Readings are only ever appended.  Whatever the request,
    [api_sensor_data] leaves the device rows and the setpoints alone, keeps
    every stored reading as it is, and adds at most one reading. *)
Theorem api_sensor_data_appends request now s :
  let s' := (api_sensor_data request now s).2 in
  device_control s' = device_control s ∧
  temperature_setpoint s' = temperature_setpoint s ∧
  sensor_data s ⊆ sensor_data s' ∧
  (size (sensor_data s') ≤ S (size (sensor_data s)))%nat.
Proof.
  simpl.
  destruct (api_sensor_data_store request now s)
    as [->|(k & r & Hfresh & -> & -> & ->)].
  - repeat split; try done. lia.
  - repeat split; try done.
    + by apply insert_subseteq.
    + by rewrite map_size_insert_None.
Qed.
End sensor_more.

Lemma api_sensor_data_no_dict_witness :
  ∃ e,
    @api_sensor_data zero_only_syntax mysql
      {| method := POST; user := None; body := Raise JSONDecodeError;
         data := Raise ParseError; query_params := [] |} 100 one_reading_store =
      (Ok (api_error e), one_reading_store).
Proof.
  apply (@api_sensor_data_no_dict zero_only_syntax mysql); [reflexivity|].
  intros d. discriminate.
Defined.

(** ** Ordered querysets *)

Section ordered.
Context {A : Type}.
Implicit Types (t : gmap Z A) (o : ordering A).

#[local] Instance not_after_total o : Total (not_after o).
Proof. intros x y. unfold not_after, precedes. lia. Qed.

#[local] Instance not_after_trans o : Transitive (not_after o).
Proof. intros x y z. unfold not_after, precedes. lia. Qed.

Lemma objects_all_Permutation o t : objects_all o t ≡ₚ map_to_list t.
Proof. apply merge_sort_Permutation. Qed.

Lemma objects_all_sorted o t : StronglySorted (not_after o) (objects_all o t).
Proof. apply StronglySorted_merge_sort; apply _. Qed.

Lemma elem_of_objects_all o t k a : (k, a) ∈ objects_all o t ↔ t !! k = Some a.
Proof. by rewrite objects_all_Permutation, elem_of_map_to_list. Qed.

Lemma NoDup_objects_all o t : NoDup (objects_all o t).
Proof. rewrite objects_all_Permutation. apply NoDup_map_to_list. Qed.

Lemma length_objects_all o t : length (objects_all o t) = size t.
Proof. by rewrite objects_all_Permutation, length_map_to_list. Qed.

(** [first()] is the head of the evaluated queryset. *)
Lemma objects_first_head o t : objects_first o t = head (objects_all o t).
Proof.
  pose proof (objects_all_sorted o t) as Hsorted.
  destruct (objects_all o t) as [|[k a] l] eqn:Hall; simpl.
  - apply objects_first_None, map_to_list_empty_iff, Permutation_nil_r.
    by rewrite <-objects_all_Permutation, Hall.
  - apply StronglySorted_inv in Hsorted as [_ Hhead].
    apply objects_first_intro.
    + apply (elem_of_objects_all o). rewrite Hall. by left.
    + intros k' a' Hk'. apply (elem_of_objects_all o) in Hk'. rewrite Hall in Hk'.
      apply elem_of_cons in Hk' as [[= -> ->]|Hin]; [apply precedes_irrefl|].
      by eapply Forall_forall in Hhead.
Qed.

Lemma StronglySorted_lookup_lt (R : relation (Z * A)) l i j x y :
  StronglySorted R l → (i < j)%nat → l !! i = Some x → l !! j = Some y → R x y.
Proof.
  intros Hsorted. revert i j.
  induction Hsorted as [|z l _ IH Hhead]; intros i j Hij Hi Hj; [done|].
  destruct j as [|j]; [lia|]. simpl in Hj. destruct i as [|i]; simpl in Hi.
  - injection Hi as <-. eapply Forall_forall in Hhead; [done|].
    by eapply list_elem_of_lookup_2.
  - apply (IH i j); [lia|done|done].
Qed.

(** With [ordering = ['-field']] the rows come with [field] not
    increasing. *)
Lemma objects_all_desc (field : A → Z) t i j x y :
  (i ≤ j)%nat →
  objects_all (desc field) t !! i = Some x →
  objects_all (desc field) t !! j = Some y →
  field y.2 ≤ field x.2.
Proof.
  intros Hij Hi Hj.
  destruct (decide (i = j)) as [->|Hne]; [assert (x = y) by congruence; subst; lia|].
  pose proof (objects_all_sorted (desc field) t) as Hsorted.
  pose proof (StronglySorted_lookup_lt _ _ i j x y Hsorted) as Hxy.
  unfold not_after, precedes in Hxy. simpl in Hxy.
  specialize (Hxy ltac:(lia) Hi Hj). lia.
Qed.
End ordered.

(** ** Pagination *)

Section paginator_facts.
Context {A : Type} `{IntSyntax}.
Implicit Types (p : Paginator A) (l : list A).

Lemma num_pages_bounds p :
  0 < per_page p →
  1 ≤ num_pages p ∧
  count p ≤ num_pages p * per_page p ∧
  (num_pages p - 1) * per_page p < Z.max 1 (count p).
Proof.
  intros Hc. unfold num_pages. set (h := Z.max 1 (count p)).
  assert (1 ≤ h) by lia. assert (count p ≤ h) by lia.
  pose proof (Z.div_mod (h + per_page p - 1) (per_page p) ltac:(lia)) as Hdiv.
  pose proof (Z.mod_pos_bound (h + per_page p - 1) (per_page p) Hc) as Hmod.
  simpl. nia.
Qed.

Lemma lookup_slice l bottom top j x :
  0 ≤ bottom →
  slice l bottom top !! j = Some x ↔
  (Z.of_nat j < top - bottom) ∧ l !! (Z.to_nat bottom + j)%nat = Some x.
Proof.
  intros Hb. unfold slice. rewrite lookup_take_Some, lookup_drop.
  split; intros [? ?]; split; try done; lia.
Qed.

(** What [page] hands over for a number in range: the rows of that rank. *)
Lemma page_in_range p n :
  0 < per_page p →
  1 ≤ n ≤ num_pages p →
  ∃ pg, page p (ArgInt n) = inr pg ∧ number pg = n ∧ paginator pg = p ∧
        ∀ j x, page_object_list pg !! j = Some x ↔
               (Z.of_nat j < per_page p) ∧
               object_list p !! (Z.to_nat ((n - 1) * per_page p) + j)%nat = Some x.
Proof.
  intros Hc [Hlo Hhi]. unfold page, validate_number. simpl.
  rewrite (proj2 (Z.ltb_ge n 1)) by lia.
  rewrite (proj2 (Z.ltb_ge (num_pages p) n)) by lia.
  eexists. split; [done|]. simpl. split; [done|]. split; [done|].
  intros j x. split.
  - intros [Hj Hx]%lookup_slice; [|nia]. split; [|done].
    destruct (count p <=? _) eqn:Hclip; [|lia].
    apply Z.leb_le in Hclip. lia.
  - intros [Hj Hx]. apply lookup_slice; [nia|]. split; [|done].
    destruct (count p <=? _) eqn:Hclip; [|lia].
    apply lookup_lt_Some in Hx. unfold count. nia.
Qed.

(** [get_page] answers with a page whatever it is given: page 1 when the
    argument is not an integer, the last page when the integer is out of
    range, and the page asked for otherwise. *)
Lemma get_page_number p arg :
  0 < per_page p →
  ∃ pg, get_page p arg = inr pg ∧ paginator pg = p ∧
        1 ≤ number pg ≤ num_pages p ∧
        (int_of_arg arg = None → number pg = 1) ∧
        (∀ n, int_of_arg arg = Some n → 1 ≤ n ≤ num_pages p → number pg = n) ∧
        (∀ n, int_of_arg arg = Some n → n < 1 ∨ num_pages p < n →
              number pg = num_pages p) ∧
        ∀ j x, page_object_list pg !! j = Some x ↔
               (Z.of_nat j < per_page p) ∧
               object_list p !! (Z.to_nat ((number pg - 1) * per_page p) + j)%nat
                 = Some x.
Proof.
  intros Hc. destruct (num_pages_bounds p Hc) as (Hone & _ & _).
  unfold get_page, validate_number.
  destruct (int_of_arg arg) as [n|] eqn:Harg.
  - destruct (n <? 1) eqn:Hlo; [apply Z.ltb_lt in Hlo|apply Z.ltb_ge in Hlo].
    { destruct (page_in_range p (num_pages p) Hc ltac:(lia))
        as (pg & -> & Hn & Hp & Hrows).
      exists pg. rewrite Hn.
      split_and!; try done; try lia; intros n' [= <-]; lia. }
    destruct (num_pages p <? n) eqn:Hhi;
      [apply Z.ltb_lt in Hhi|apply Z.ltb_ge in Hhi].
    { destruct (page_in_range p (num_pages p) Hc ltac:(lia))
        as (pg & -> & Hn & Hp & Hrows).
      exists pg. rewrite Hn.
      split_and!; try done; try lia; intros n' [= <-]; lia. }
    destruct (page_in_range p n Hc ltac:(lia)) as (pg & -> & Hn & Hp & Hrows).
    exists pg. rewrite Hn.
    split_and!; try done; try lia; intros n' [= <-]; try done; lia.
  - destruct (page_in_range p 1 Hc ltac:(lia)) as (pg & -> & Hn & Hp & Hrows).
    exists pg. rewrite Hn. split_and!; try done; lia.
Qed.
End paginator_facts.

(** ** The history page *)

Section history.
Context `{IntSyntax}.

(** For a logged-in user [data_history] renders the page [get_page] hands
    over and writes nothing. *)
Lemma data_history_run request now s u :
  user request = Some u →
  ∃ page_obj,
    get_page (history_paginator s) (page_parameter request) = inr page_obj ∧
    data_history request now s =
      (Ok (render "data_history.html" {[ "page_obj" := CPage page_obj ]}), s).
Proof.
  intros Hu.
  destruct (get_page_number (history_paginator s) (page_parameter request))
    as (page_obj & Hpage & _); [done|].
  exists page_obj. split; [done|].
  unfold data_history, login_required_page. rewrite Hu.
  unfold SensorData_all, mbind, orm_bind, mret, orm_ret. simpl.
  unfold page_parameter in Hpage. by rewrite Hpage.
Qed.

(** Whatever the [page] parameter, a logged-in user is shown a page, and
    the database is as before.  The page holds at most 50 rows; each is a
    stored reading, none is listed twice, and they come newest first. *)
Theorem data_history_page request now s u :
  user request = Some u →
  ∃ page_obj,
    data_history request now s =
      (Ok (render "data_history.html" {[ "page_obj" := CPage page_obj ]}), s) ∧
    (length (page_object_list page_obj) ≤ 50)%nat ∧
    (∀ k r, (k, r) ∈ page_object_list page_obj → sensor_data s !! k = Some r) ∧
    NoDup (page_object_list page_obj) ∧
    (∀ i j x y, (i ≤ j)%nat →
       page_object_list page_obj !! i = Some x →
       page_object_list page_obj !! j = Some y →
       timestamp y.2 ≤ timestamp x.2).
Proof.
  intros Hu.
  destruct (data_history_run request now s u Hu) as (page_obj & Hpage & Hrun).
  destruct (get_page_number (history_paginator s) (page_parameter request))
    as (pg & Hpage' & _ & Hrange & _ & _ & _ & Hrows); [done|].
  rewrite Hpage in Hpage'. injection Hpage' as <-. simpl in Hrows.
  exists page_obj. split; [done|]. split_and!.
  - destruct (decide (length (page_object_list page_obj) ≤ 50)%nat) as [|Hlong];
      [done|].
    destruct (lookup_lt_is_Some_2 (page_object_list page_obj) 50 ltac:(lia))
      as [x Hx].
    apply Hrows in Hx as [Hx _]. lia.
  - intros k r [j Hj]%list_elem_of_lookup_1.
    apply Hrows in Hj as [_ Hj].
    by apply list_elem_of_lookup_2, elem_of_objects_all in Hj.
  - apply NoDup_alt. intros i j x Hi Hj.
    apply Hrows in Hi as [_ Hi]. apply Hrows in Hj as [_ Hj].
    pose proof (NoDup_lookup _ _ _ _ (NoDup_objects_all _ _) Hi Hj). lia.
  - intros i j x y Hij Hi Hj.
    apply Hrows in Hi as [_ Hi]. apply Hrows in Hj as [_ Hj].
    eapply (objects_all_desc timestamp); [|done|done]. lia.
Qed.

(** Which page is shown.  Without a [page] parameter, or with one that
    [int] rejects, it is page 1; with an integer from 1 to the number of
    pages it is that page; with any other integer (0, a negative number, a
    number past the end) it is the last page. *)
Theorem data_history_page_number request now s u :
  user request = Some u →
  ∃ page_obj,
    data_history request now s =
      (Ok (render "data_history.html" {[ "page_obj" := CPage page_obj ]}), s) ∧
    1 ≤ number page_obj ≤ num_pages (history_paginator s) ∧
    (GET_get (query_params request) "page" = None → number page_obj = 1) ∧
    (∀ sp, GET_get (query_params request) "page" = Some sp →
           int_of_str sp = None → number page_obj = 1) ∧
    (∀ sp n, GET_get (query_params request) "page" = Some sp →
             int_of_str sp = Some n →
             1 ≤ n ≤ num_pages (history_paginator s) → number page_obj = n) ∧
    (∀ sp n, GET_get (query_params request) "page" = Some sp →
             int_of_str sp = Some n →
             n < 1 ∨ num_pages (history_paginator s) < n →
             number page_obj = num_pages (history_paginator s)).
Proof.
  intros Hu.
  destruct (data_history_run request now s u Hu) as (page_obj & Hpage & Hrun).
  destruct (get_page_number (history_paginator s) (page_parameter request))
    as (pg & Hpage' & _ & Hrange & Hnone & Hin & Hout & _); [done|].
  rewrite Hpage in Hpage'. injection Hpage' as <-.
  exists page_obj. split; [done|]. split; [done|].
  unfold page_parameter in Hnone, Hin, Hout.
  split_and!.
  - intros Hget. rewrite Hget in Hnone. by apply Hnone.
  - intros sp Hget Hint. rewrite Hget in Hnone. by apply Hnone.
  - intros sp n Hget Hint Hn. rewrite Hget in Hin. by apply Hin.
  - intros sp n Hget Hint Hn. rewrite Hget in Hout. by apply (Hout n).
Qed.

(** Every stored reading is on exactly one page: when no two readings carry
    the same timestamp, there is one page number in range such that every
    logged-in request asking for it is shown the reading, and every
    logged-in request asking for another page in range is not. *)
Theorem data_history_reaches_every_reading s k r :
  distinct_timestamps s →
  sensor_data s !! k = Some r →
  ∃ n, 1 ≤ n ≤ num_pages (history_paginator s) ∧
    ∀ request now u sp m page_obj,
      user request = Some u →
      GET_get (query_params request) "page" = Some sp →
      int_of_str sp = Some m →
      1 ≤ m ≤ num_pages (history_paginator s) →
      data_history request now s =
        (Ok (render "data_history.html" {[ "page_obj" := CPage page_obj ]}), s) →
      ((k, r) ∈ page_object_list page_obj ↔ m = n).
Proof.
  intros _ Hk. apply (elem_of_objects_all SensorData_ordering) in Hk.
  apply list_elem_of_lookup_1 in Hk as [i Hi].
  destruct (num_pages_bounds (history_paginator s)) as (Hone & Hcover & _);
    [done|].
  pose proof (lookup_lt_Some _ _ _ Hi) as Hlen.
  unfold count in Hcover. simpl in Hcover.
  exists (Z.of_nat i / 50 + 1).
  pose proof (Z.div_mod (Z.of_nat i) 50 ltac:(lia)) as Hdiv.
  pose proof (Z.mod_pos_bound (Z.of_nat i) 50 ltac:(lia)) as Hmod.
  split; [lia|].
  intros request now u sp m page_obj Hu Hget Hint Hm Hrun.
  destruct (data_history_run request now s u Hu) as (pg & Hpage & Hrun').
  assert (page_obj = pg) as <-.
  { assert (({[ "page_obj" := CPage page_obj ]} : gmap string cval) =
            {[ "page_obj" := CPage pg ]}) as Heq by congruence.
    apply (f_equal (λ c : gmap string cval, c !! "page_obj")) in Heq.
    rewrite !lookup_singleton_eq in Heq. congruence. }
  destruct (get_page_number (history_paginator s) (page_parameter request))
    as (pg & Hpage' & _ & _ & _ & Hin & _ & Hrows); [done|].
  rewrite Hpage in Hpage'. injection Hpage' as <-. simpl in Hrows.
  assert (number page_obj = m) as Hnumber.
  { apply Hin; [|done]. unfold page_parameter. by rewrite Hget. }
  rewrite Hnumber in Hrows. split.
  - intros [j Hj]%list_elem_of_lookup_1. apply Hrows in Hj as [Hj50 Hj].
    pose proof (NoDup_lookup _ _ _ _ (NoDup_objects_all _ _) Hi Hj) as Hij.
    lia.
  - intros ->. apply list_elem_of_lookup_2 with (i := Z.to_nat (Z.of_nat i mod 50)).
    apply Hrows. split; [lia|].
    replace (Z.to_nat ((Z.of_nat i / 50 + 1 - 1) * 50) +
             Z.to_nat (Z.of_nat i mod 50))%nat with i by lia.
    done.
Qed.
End history.

Lemma data_history_page_witness :
  ∃ page_obj,
    @data_history few_numerals_syntax (history_request 7 "2") 100
      one_reading_store =
      (Ok (render "data_history.html" {[ "page_obj" := CPage page_obj ]}),
       one_reading_store) ∧
    (length (page_object_list page_obj) ≤ 50)%nat.
Proof.
  destruct (@data_history_page few_numerals_syntax (history_request 7 "2") 100
              one_reading_store 7 eq_refl) as (page_obj & Hrun & Hlen & _).
  exists page_obj. split; [exact Hrun|exact Hlen].
Defined.

(** Page 7 of a history of one reading: the last page, which is page 1. *)
Lemma data_history_page_number_witness :
  ∃ page_obj,
    @data_history few_numerals_syntax (history_request 7 "7") 100
      one_reading_store =
      (Ok (render "data_history.html" {[ "page_obj" := CPage page_obj ]}),
       one_reading_store) ∧
    number page_obj = 1.
Proof.
  destruct (@data_history_page_number few_numerals_syntax (history_request 7 "7")
              100 one_reading_store 7 eq_refl)
    as (page_obj & Hrun & _ & _ & _ & _ & Hout).
  exists page_obj. split; [exact Hrun|].
  rewrite (Hout "7" 7 eq_refl eq_refl); [reflexivity|].
  right. vm_compute. reflexivity.
Defined.

Lemma one_reading_store_distinct : distinct_timestamps one_reading_store.
Proof.
  intros k1 k2 r1 r2 Hk1 Hk2 _. unfold one_reading_store in Hk1, Hk2.
  simpl in Hk1, Hk2.
  apply lookup_singleton_Some in Hk1 as [<- _].
  apply lookup_singleton_Some in Hk2 as [<- _]. reflexivity.
Defined.

Lemma data_history_reaches_every_reading_witness :
  ∃ n, 1 ≤ n ≤ num_pages (history_paginator one_reading_store) ∧
    ∀ request now u sp m page_obj,
      user request = Some u →
      GET_get (query_params request) "page" = Some sp →
      few_numerals_syntax sp = Some m →
      1 ≤ m ≤ num_pages (history_paginator one_reading_store) →
      @data_history few_numerals_syntax request now one_reading_store =
        (Ok (render "data_history.html" {[ "page_obj" := CPage page_obj ]}),
         one_reading_store) →
      ((1, {| temperature := 24.0%float; humidity := 55.0%float;
              timestamp := 40 |}) ∈ page_object_list page_obj ↔ m = n).
Proof.
  apply (@data_history_reaches_every_reading few_numerals_syntax
           one_reading_store 1); [exact one_reading_store_distinct|reflexivity].
Defined.

(** ** Pages and the device API *)

(** The two dashboards and the device API read the same state.  The public
    dashboard needs no login; the control panel shows the same context to a
    logged-in user and sends an anonymous one to the login page; neither
    writes.  The setpoint and the latest reading in that context are the ones
    [api_get_setpoint] and [api_latest_sensor_data] report (25.0 and 404 when
    the context holds [None]). *)
Theorem dashboards_agree_with_api request now s request' now' :
  method request' = GET →
  query_get (query_params request') "api_key" "" = VALID_API_KEY →
  ∃ latest sp,
    let context : gmap string cval :=
      {[ "latest_sensor" := CSensor latest;
         "devices" := CDevices (device_control s);
         "setpoint" := CSetpoint sp ]} in
    public_dashboard request now s =
      (Ok (render "public_dashboard.html" context), s) ∧
    (∀ u, user request = Some u →
          admin_dashboard request now s =
            (Ok (render "admin_dashboard.html" context), s)) ∧
    (user request = None →
     admin_dashboard request now s = (Ok (plain (HttpResponseRedirect "login")), s)) ∧
    api_get_setpoint request' now' s =
      (Ok (match sp with
           | Some x => setpoint_response (setpoint_temperature x.2)
                         (RDatetime (updated_at x.2))
           | None => setpoint_response 25.0%float RNone
           end), s) ∧
    api_latest_sensor_data request' now' s =
      (Ok (match latest with
           | Some x => latest_reading x.2
           | None => Response {[ "error" := RStr "No sensor data available" ]}
                       HTTP_404_NOT_FOUND
           end), s).
Proof.
  intros Hm Hkey.
  exists (objects_first SensorData_ordering (sensor_data s)),
    (objects_first TemperatureSetpoint_ordering (active s)).
  simpl. split_and!.
  - done.
  - intros u Hu. unfold admin_dashboard, login_required_page. by rewrite Hu.
  - intros Hu. unfold admin_dashboard, login_required_page. by rewrite Hu.
  - unfold api_get_setpoint. run_view. rewrite Hm, Hkey. simpl.
    by destruct (objects_first _ _).
  - unfold api_latest_sensor_data. run_view. rewrite Hm, Hkey. simpl.
    by destruct (objects_first _ _).
Qed.

Lemma dashboards_agree_with_api_witness :
  ∃ latest sp,
    public_dashboard (device_get "") 100 two_active_store =
      (Ok (render "public_dashboard.html"
             {[ "latest_sensor" := CSensor latest;
                "devices" := CDevices (device_control two_active_store);
                "setpoint" := CSetpoint sp ]}), two_active_store) ∧
    api_get_setpoint (device_get VALID_API_KEY) 101 two_active_store =
      (Ok (match sp with
           | Some x => setpoint_response (setpoint_temperature x.2)
                         (RDatetime (updated_at x.2))
           | None => setpoint_response 25.0%float RNone
           end), two_active_store).
Proof.
  destruct (dashboards_agree_with_api (device_get "") 100 two_active_store
              (device_get VALID_API_KEY) 101 eq_refl eq_refl)
    as (latest & sp & Hpublic & _ & _ & Hsetpoint & _).
  exists latest, sp. split; [exact Hpublic|exact Hsetpoint].
Defined.

(** When no two readings carry the same timestamp, the first row of the
    first history page is the reading [api_latest_sensor_data] reports; the
    page is empty exactly when the API answers 404. *)
Theorem data_history_starts_with_latest `{IntSyntax} request now s u request' now' :
  distinct_timestamps s →
  user request = Some u →
  GET_get (query_params request) "page" = None →
  method request' = GET →
  query_get (query_params request') "api_key" "" = VALID_API_KEY →
  ∃ page_obj,
    data_history request now s =
      (Ok (render "data_history.html" {[ "page_obj" := CPage page_obj ]}), s) ∧
    api_latest_sensor_data request' now' s =
      (Ok (match head (page_object_list page_obj) with
           | Some x => latest_reading x.2
           | None => Response {[ "error" := RStr "No sensor data available" ]}
                       HTTP_404_NOT_FOUND
           end), s).
Proof.
  intros _ Hu Hget Hm Hkey.
  destruct (data_history_run request now s u Hu) as (page_obj & Hpage & Hrun).
  destruct (get_page_number (history_paginator s) (page_parameter request))
    as (pg & Hpage' & _ & _ & Hnone & _ & _ & Hrows); [done|].
  rewrite Hpage in Hpage'. injection Hpage' as <-. simpl in Hrows.
  exists page_obj. split; [done|].
  rewrite Hnone in Hrows by (unfold page_parameter; by rewrite Hget).
  assert (head (page_object_list page_obj) =
          objects_first SensorData_ordering (sensor_data s)) as ->.
  { rewrite objects_first_head, !head_lookup.
    destruct (readings s !! 0%nat) as [x|] eqn:Hx.
    - apply Hrows. split; [lia|done].
    - destruct (page_object_list page_obj !! 0%nat) as [y|] eqn:Hy; [|done].
      apply Hrows in Hy as [_ Hy]. simpl in Hy. congruence. }
  unfold api_latest_sensor_data. run_view. rewrite Hm, Hkey. simpl.
  by destruct (objects_first _ _).
Qed.

Lemma data_history_starts_with_latest_witness :
  ∃ page_obj,
    @data_history few_numerals_syntax
      {| method := GET; user := Some 7; body := Raise JSONDecodeError;
         data := Ok (VDict ∅); query_params := [] |} 100 one_reading_store =
      (Ok (render "data_history.html" {[ "page_obj" := CPage page_obj ]}),
       one_reading_store) ∧
    api_latest_sensor_data (device_get VALID_API_KEY) 101 one_reading_store =
      (Ok (match head (page_object_list page_obj) with
           | Some x => latest_reading x.2
           | None => Response {[ "error" := RStr "No sensor data available" ]}
                       HTTP_404_NOT_FOUND
           end), one_reading_store).
Proof.
  exact (@data_history_starts_with_latest few_numerals_syntax
           {| method := GET; user := Some 7; body := Raise JSONDecodeError;
              data := Ok (VDict ∅); query_params := [] |} 100 one_reading_store 7
           (device_get VALID_API_KEY) 101 one_reading_store_distinct
           eq_refl eq_refl eq_refl eq_refl).
Defined.

(** ** What every sequence of requests keeps *)

Section site.
Context `{FloatSyntax} `{Database} `{Clock} `{IntSyntax}.

Lemma as_page_store (v : view) request now s :
  (as_page v request now s).2 = (v request now s).2.
Proof.
  unfold as_page, mbind, orm_bind, mret, orm_ret.
  by destruct (v request now s) as [[r|e] s'].
Qed.

Lemma page_views_never_write request now s :
  (admin_dashboard request now s).2 = s ∧
  (public_dashboard request now s).2 = s ∧
  (data_history request now s).2 = s.
Proof.
  split_and!.
  - unfold admin_dashboard, login_required_page. by destruct (user request).
  - done.
  - destruct (user request) as [u|] eqn:Hu.
    + by destruct (data_history_run request now s u Hu) as (pg & _ & ->).
    + unfold data_history, login_required_page. by rewrite Hu.
Qed.

(** One request to one route keeps the database consistent and keeps every
    stored reading. *)
Lemma resolve_step path v request now s :
  resolve path = Some v →
  consistent s →
  consistent (v request now s).2 ∧ sensor_data s ⊆ sensor_data (v request now s).2.
Proof.
  intros Hroute (Huniq & Hallowed & Hactive).
  unfold resolve in Hroute.
  apply elem_of_list_to_map_2 in Hroute. unfold urlpatterns in Hroute.
  destruct (page_views_never_write request now s) as (Hadmin & Hpublic & Hhistory).
  repeat (apply elem_of_cons in Hroute as [[= _ ->]|Hroute]);
    [..|by apply elem_of_nil in Hroute]; rewrite ?as_page_store.
  - by rewrite Hadmin.
  - by rewrite Hpublic.
  - by rewrite Hhistory.
  - destruct (update_setpoint_store request now s)
      as [->|(k & r & Htbl & Hsensor & Hdevice & Hr & Hrow)]; [done|].
    split; [|by rewrite Hsensor]. split_and!.
    + unfold unique_device. rewrite Hdevice. apply Huniq.
    + rewrite Hdevice. apply Hallowed.
    + rewrite Htbl. destruct Hrow as [[Hf _]|(r0 & Hf & _)].
      * rewrite (objects_filter_insert_first _ _ _ _ Hf) by done.
        by rewrite map_size_singleton.
      * rewrite (objects_filter_insert_over _ _ _ _ _ Hf) by done.
        by rewrite map_size_singleton.
  - destruct (control_device_preserves request now s Huniq) as [Huniq' _].
    destruct (control_device_store request now s)
      as [Hsame|(k & r & d & Htbl & Hsensor & Hsetpoint & _ & _ & Hname & _)].
    { rewrite Hsame. done. }
    split; [|by rewrite Hsensor]. split_and!; [done| |by rewrite Hsetpoint].
    rewrite Htbl.
    intros k' r' [[_ <-]|[_ Hk']]%lookup_insert_Some; [done|by eauto].
  - destruct (api_sensor_data_store request now s)
      as [->|(k & r & Hfresh & Hsensor & Hdevice & Hsetpoint)]; [done|].
    split; [|rewrite Hsensor; by apply insert_subseteq]. split_and!.
    + unfold unique_device. rewrite Hdevice. apply Huniq.
    + rewrite Hdevice. apply Hallowed.
    + by rewrite Hsetpoint.
  - assert ((api_get_setpoint request now s).2 = s) as ->; [|done].
    unfold api_get_setpoint. run_view. repeat case_bool_decide; simpl; try done.
    by destruct (objects_first _ _).
  - assert ((api_get_device_status request now s).2 = s) as ->; [|done].
    unfold api_get_device_status. run_view. by repeat case_bool_decide.
  - assert ((api_latest_sensor_data request now s).2 = s) as ->; [|done].
    unfold api_latest_sensor_data. run_view. repeat case_bool_decide; simpl; try done.
    by destruct (objects_first _ _).
Qed.

(** Whatever requests arrive, at whatever paths and in whatever order, a
    consistent database stays consistent (one row per device at most, rows
    for the fan and the heater only, one active setpoint at most), and no
    stored reading is removed or changed. *)
Theorem run_site_consistent calls s :
  consistent s →
  consistent (run_site calls s) ∧ sensor_data s ⊆ sensor_data (run_site calls s).
Proof.
  revert s. induction calls as [|[[path request] now] calls IH]; intros s Hs;
    [done|].
  simpl. destruct (resolve path) as [v|] eqn:Hroute; [|by apply IH].
  destruct (resolve_step path v request now s Hroute Hs) as [Hs' Hsub].
  destruct (IH _ Hs') as [Hend Hsub']. split; [done|]. by etrans.
Qed.
End site.

Lemma run_site_consistent_witness :
  consistent
    (@run_site zero_only_syntax mysql sample_clock few_numerals_syntax
       [("update-setpoint/", setpoint_request 7 (VFloat 27.5%float), 100);
        ("control-device/", device_request 7 "fan" "on", 110);
        ("api/sensor-data/",
         device_post {[ "temperature" := VFloat 25.5%float;
                        "humidity" := VFloat 60.0%float;
                        "api_key" := VStr VALID_API_KEY ]}, 120);
        ("nowhere/", list_body_request, 130);
        ("update-setpoint/", setpoint_request 8 (VInt 30), 140)] empty_store).
Proof.
  apply (@run_site_consistent zero_only_syntax mysql sample_clock few_numerals_syntax).
  split; [|split].
  - intros k1 k2 r1 r2 Hk1. simpl in Hk1. rewrite lookup_empty in Hk1.
    discriminate Hk1.
  - intros k r Hk. simpl in Hk. rewrite lookup_empty in Hk. discriminate Hk.
  - vm_compute. lia.
Defined.

(** ** The admin site and the views *)

Section admin.
Context `{FloatSyntax} `{Database} `{Clock}.

(** How the views and the admin site compose.  When a setpoint row is
    active and the admin site saves a new instance that is active too, the
    table holds several active rows, and from then on every logged-in POST
    to [update_setpoint] that carries a temperature is answered 400 with the
    text of [MultipleObjectsReturned], without a write. *)
Theorem admin_add_blocks_update_setpoint admin_request a t now s
    request now' u d t' :
  user admin_request = Some a →
  active s ≠ ∅ →
  let s1 := (save_model admin_request (new_setpoint_form t true) now s).2 in
  user request = Some u →
  method request = POST →
  body request = Ok (VDict d) →
  py_float (default (VFloat 25.0%float) (d !! "setpoint")) = Ok t' →
  (size (active s1) = S (size (active s)))%nat ∧
  update_setpoint request now' s1 =
    (Ok (request_failed MultipleObjectsReturned), s1).
Proof.
  intros Ha Hactive s1 Hu Hm Hb Ht.
  assert (size (active s1) = S (size (active s)))%nat as Hsize.
  { unfold s1, save_model, new_setpoint_form. simpl. rewrite Ha. simpl.
    unfold objects_filter.
    rewrite map_filter_insert_True by done.
    apply map_size_insert_None. apply map_lookup_filter_None. left.
    apply next_id_fresh. }
  split; [done|].
  apply (update_setpoint_several_active _ _ _ u d t'); try done.
  rewrite Hsize. apply map_size_non_empty_iff in Hactive. lia.
Qed.
End admin.

Lemma admin_add_blocks_update_setpoint_witness :
  let s0 := (@update_setpoint zero_only_syntax mysql sample_clock
               (setpoint_request 7 (VFloat 27.5%float)) 100 empty_store).2 in
  let s1 := (@save_model sample_clock admin_post
               (new_setpoint_form 22.0%float true) 200 s0).2 in
  @update_setpoint zero_only_syntax mysql sample_clock
    (setpoint_request 7 (VFloat 30.0%float)) 300 s1 =
    (Ok (request_failed MultipleObjectsReturned), s1).
Proof.
  cbv zeta.
  assert (active (@update_setpoint zero_only_syntax mysql sample_clock
                    (setpoint_request 7 (VFloat 27.5%float)) 100 empty_store).2
          ≠ ∅) as Hactive.
  { intros Hempty.
    assert (active (@update_setpoint zero_only_syntax mysql sample_clock
                      (setpoint_request 7 (VFloat 27.5%float)) 100 empty_store).2
            !! 1 = None) as Hone by (by rewrite Hempty).
    vm_compute in Hone. discriminate Hone. }
  apply (@admin_add_blocks_update_setpoint zero_only_syntax mysql sample_clock
           admin_post 1 22.0%float 200 _
           (setpoint_request 7 (VFloat 30.0%float)) 300 7
           {[ "setpoint" := VFloat 30.0%float ]} 30.0%float eq_refl Hactive);
    reflexivity.
Defined.

(** ** The system tester *)

Ltac run_test :=
  unfold tm_try_except, orm_call, print, count_passed, count_failed, count_warning,
    mbind, tm_bind, mret, tm_ret; simpl.

(** Round trip of the sample reading: [test_sample_data_insertion] stores
    25.5 and 60.0 under the next key of the sequence, prints that key, reads
    the same values back under it and deletes the row.  The rows of the
    three tables end exactly as they were and the sequence has moved on to
    the key given, so that a second run is given the key after it.  The
    test returns [True] and counts one more test passed, none failed. *)
Theorem test_sample_data_insertion_cleans_up `{Database} now w :
  let k := next_id (sensor_data_seq (db w)) (sensor_data (db w)) in
  let db' := set_sensor_data_seq k (db w) in
  test_sample_data_insertion now w =
    (Ok true,
     {| self := {| passed := passed (self w) + 1; failed := failed (self w);
                   warnings := warnings (self w) |};
        stdout := stdout w ++
          [ [PLit (after_newline "[TEST 6] Sample Data Insertion")];
            [PLit "✓ Created sample sensor data (ID: "; PInt k; PLit ")"];
            [PLit "✓ Retrieved sensor data: "; PFloat 25.5%float;
             PLit "°C, "; PFloat 60.0%float; PLit "%"];
            [PLit "✓ Cleanup successful"] ];
        db := db' |}) ∧
  sensor_data (db w) !! k = None ∧
  sensor_data_seq (db w) < k ∧
  next_id (sensor_data_seq db') (sensor_data db') = k + 1.
Proof.
  simpl. split; [|split; [apply next_id_fresh|split;
                          [apply next_id_above|apply next_id_next]]].
  unfold test_sample_data_insertion. run_test.
  unfold SensorData_create.
  rewrite !db_accepts_finite by done. simpl.
  rewrite lookup_insert_eq. simpl.
  rewrite delete_insert_id by apply next_id_fresh.
  rewrite <-!app_assoc. simpl. by destruct w as [t out [? ? ? ? ? ?]].
Qed.

(** [test_models] never writes to the database and never counts a failure:
    it returns [True], counts one more test passed, and raises the warnings
    by the number of things missing among a row for the fan, a row for the
    heater and an active setpoint. *)
Theorem test_models_counts_missing now w :
  let missing (b : bool) : Z := if b then 1 else 0 in
  ∃ w',
    test_models now w = (Ok true, w') ∧
    db w' = db w ∧
    passed (self w') = passed (self w) + 1 ∧
    failed (self w') = failed (self w) ∧
    warnings (self w') =
      warnings (self w)
      + missing (bool_decide (rows_of "fan" (db w) = ∅))
      + missing (bool_decide (rows_of "heater" (db w) = ∅))
      + missing (bool_decide (active (db w) = ∅)).
Proof.
  simpl. unfold test_models. run_test.
  assert (∀ name, bool_decide (size (rows_of name (db w)) ≠ 0%nat) =
                  negb (bool_decide (rows_of name (db w) = ∅))) as Hexists.
  { intros name. rewrite <-bool_decide_not. apply bool_decide_ext.
    by rewrite map_size_non_empty_iff. }
  rewrite !Hexists.
  assert (bool_decide (active (db w) = ∅) =
          match objects_first TemperatureSetpoint_ordering (active (db w)) with
          | Some _ => false
          | None => true
          end) as ->.
  { destruct (objects_first _ _) as [x|] eqn:Hfirst.
    - apply bool_decide_eq_false. intros Hempty.
      apply (objects_first_None TemperatureSetpoint_ordering) in Hempty.
      congruence.
    - apply bool_decide_eq_true.
      by apply (objects_first_None TemperatureSetpoint_ordering). }
  destruct (bool_decide (rows_of "fan" (db w) = ∅)),
    (bool_decide (rows_of "heater" (db w) = ∅)); simpl;
    destruct (objects_first TemperatureSetpoint_ordering (active (db w)));
    simpl; eexists; (split; [done|]); simpl; split_and!; try done; lia.
Qed.
